(** * Zappa WSGI middleware ([zappa/middleware.py]): a shallow embedding

    The middleware is Python 2 code ([basestring], [unicode], an eager [map]
    used for its side effect).  Text is modelled by [string]: a text value is
    represented by its UTF-8 bytes, so [.encode('utf-8')] is the identity and
    the ASCII delimiters [=] and [;] are found at the same places as in the
    Python text.  A Python [dict] is an association list with distinct keys
    whose order is the iteration order of the dict, which CPython 2 leaves
    unspecified: results stated for every list hold for every such order.
    Exceptions are values of an error monad; the instance attributes of
    [ZappaWSGIMiddleware] form the record [state], threaded explicitly. *)

From Stdlib Require Import List String Ascii Bool Arith ZArith NArith Lia.
Import ListNotations.
Open Scope string_scope.
Open Scope list_scope.

(** ** Exceptions and the error monad *)

Inductive exn : Type :=
| IndexError
| ValueError
| KeyError
| AttributeError
| TypeError
| AppError (tag : string).

Inductive result (A : Type) : Type :=
| Ok (a : A)
| Raise (e : exn).
Arguments Ok {A} a.
Arguments Raise {A} e.

Definition bind {A B : Type} (r : result A) (k : A -> result B) : result B :=
  match r with
  | Ok a => k a
  | Raise e => Raise e
  end.

Notation "x <- r ;; k" := (bind r (fun x => k))
  (at level 61, r at next level, right associativity).

Definition is_ok {A : Type} (r : result A) : bool :=
  match r with Ok _ => true | Raise _ => false end.

(** [mapM f l]: a list comprehension whose element expression may raise;
    the first exception aborts the whole comprehension. *)
Fixpoint mapM {A B : Type} (f : A -> result B) (l : list A) : result (list B) :=
  match l with
  | [] => Ok []
  | a :: l' => b <- f a ;; bs <- mapM f l' ;; Ok (b :: bs)
  end.

(** ** The [str] methods used by the middleware *)

Module Str.

Definition eq_char (a b : ascii) : bool := Ascii.eqb a b.

(** [s.count(c)] for a one-character [c]. *)
Fixpoint count (c : ascii) (s : string) : nat :=
  match s with
  | EmptyString => 0
  | String a s' => (if eq_char a c then 1 else 0) + count c s'
  end.

(** [s.split(c)]: every occurrence of [c] separates two fields. *)
Fixpoint split (c : ascii) (s : string) : list string :=
  match s with
  | EmptyString => [EmptyString]
  | String a s' =>
      if eq_char a c then EmptyString :: split c s'
      else match split c s' with
           | [] => [String a EmptyString]
           | f :: fs => String a f :: fs
           end
  end.

(** [s.split(c, 1)]: at most one cut, at the first occurrence of [c]. *)
Fixpoint split1 (c : ascii) (s : string) : list string :=
  match s with
  | EmptyString => [EmptyString]
  | String a s' =>
      if eq_char a c then [EmptyString; s']
      else match split1 c s' with
           | [] => [String a EmptyString]
           | f :: fs => String a f :: fs
           end
  end.

(** The characters removed by [strip()] on a byte string. *)
Definition is_space (a : ascii) : bool :=
  let n := nat_of_ascii a in
  Nat.eqb n 32 || (Nat.leb 9 n && Nat.leb n 13).

Fixpoint lstrip (s : string) : string :=
  match s with
  | EmptyString => EmptyString
  | String a s' => if is_space a then lstrip s' else s
  end.

Fixpoint rstrip (s : string) : string :=
  match s with
  | EmptyString => EmptyString
  | String a s' =>
      match rstrip s' with
      | EmptyString => if is_space a then EmptyString else String a EmptyString
      | r => String a r
      end
  end.

Definition strip (s : string) : string := rstrip (lstrip s).

Definition lower_char (a : ascii) : ascii :=
  let n := nat_of_ascii a in
  if Nat.leb 65 n && Nat.leb n 90 then ascii_of_nat (n + 32) else a.

Fixpoint lower (s : string) : string :=
  match s with
  | EmptyString => EmptyString
  | String a s' => String (lower_char a) (lower s')
  end.

(** [p in s]: [p] occurs in [s] as a substring. *)
Fixpoint contains (p s : string) : bool :=
  String.prefix p s ||
  match s with
  | EmptyString => false
  | String _ s' => contains p s'
  end.

(** [sep.join(l)]. *)
Fixpoint join (sep : string) (l : list string) : string :=
  match l with
  | [] => EmptyString
  | [x] => x
  | x :: l' => (x ++ sep ++ join sep l')%string
  end.

End Str.

(** ** Python values and dictionaries *)

Set Warnings "-register-all".

(** The values [json.loads] can produce (floats left out), which are also
    the values a cookie mapping or a WSGI environment holds here. *)
Inductive pyval : Type :=
| PNone
| PBool (b : bool)
| PInt (z : Z)
| PStr (s : string)
| PList (l : list pyval)
| PDict (d : list (string * pyval)).

Definition dict : Type := list (string * pyval).

(** [isinstance(v, basestring)], the same test as
    [isinstance(v, (str, unicode))]. *)
Definition is_basestring (v : pyval) : bool :=
  match v with PStr _ => true | _ => false end.

Module Dict.

Definition keys (d : dict) : list string := map fst d.

Fixpoint get (d : dict) (k : string) : option pyval :=
  match d with
  | [] => None
  | (k', v) :: d' => if String.eqb k' k then Some v else get d' k
  end.

Definition mem (d : dict) (k : string) : bool :=
  match get d k with Some _ => true | None => false end.

(** [d[k] = v] *)
Fixpoint set (d : dict) (k : string) (v : pyval) : dict :=
  match d with
  | [] => [(k, v)]
  | (k', v') :: d' =>
      if String.eqb k' k then (k', v) :: d' else (k', v') :: set d' k v
  end.

(** [d.pop(k, None)], the popped value dropped. *)
Definition pop (d : dict) (k : string) : dict :=
  filter (fun kv => negb (String.eqb (fst kv) k)) d.

(** [del d[k]]: [KeyError] when [k] is not a key. *)
Definition delitem (d : dict) (k : string) : result dict :=
  if mem d k then Ok (pop d k) else Raise KeyError.

(** [d.update(other)] *)
Definition update (d other : dict) : dict :=
  fold_left (fun acc kv => set acc (fst kv) (snd kv)) other d.

(** The keys of a dict are pairwise distinct. *)
Fixpoint wf (d : dict) : bool :=
  match d with
  | [] => true
  | (k, _) :: d' => negb (mem d' k) && wf d'
  end.

End Dict.

(** ** The libraries the middleware calls

    [time], [werkzeug], [base58] and [json] are not part of the repository:
    the middleware is verified against any implementation of the calls it
    makes.  A call that raises [ValueError] returns [None]. *)

Class PyLib : Type := {
  (** [time.struct_time] and its comparison [exp < now] *)
  struct_time : Type;
  struct_time_lt : struct_time -> struct_time -> bool;
  (** [time.strptime(data, format)] *)
  strptime : string -> string -> option struct_time;
  (** [werkzeug.http.parse_cookie(environ)] *)
  parse_cookie : dict -> dict;
  (** [base58.b58decode(v)] *)
  b58decode : string -> option string;
  (** [json.loads(s)] *)
  json_loads : string -> option pyval
}.

(** ** WSGI vocabulary *)

Definition header : Type := (string * string)%type.
Definition exc_info : Type := option exn.

(** One invocation of a response starter: [start_response(status, headers,
    exc_info)]. *)
Record sr_call : Type := {
  sr_status : string;
  sr_headers : list header;
  sr_exc_info : exc_info
}.

(** [l[i]] on a list: [IndexError] out of range. *)
Definition index {A : Type} (l : list A) (i : nat) : result A :=
  match nth_error l i with
  | Some a => Ok a
  | None => Raise IndexError
  end.

Definition is_set_cookie (h : header) : bool := String.eqb (fst h) "Set-Cookie".

(** Truth value of [self.redirect_content]: [None] and the empty string are
    false. *)
Definition truthy (c : option string) : bool :=
  match c with
  | None => false
  | Some EmptyString => false
  | Some _ => true
  end.

(** A terminated run of a generator: the values it yields, ended by
    [StopIteration] or by an exception. *)
Inductive gen (A : Type) : Type :=
| Stop
| Yield (a : A) (rest : gen A)
| Throw (e : exn).
Arguments Stop {A}.
Arguments Yield {A} a rest.
Arguments Throw {A} e.

Fixpoint yields {A : Type} (g : gen A) : list A :=
  match g with
  | Yield a rest => a :: yields rest
  | _ => []
  end.

Fixpoint throws {A : Type} (g : gen A) : option exn :=
  match g with
  | Stop => None
  | Yield _ rest => throws rest
  | Throw e => Some e
  end.

(** ** [class ZappaWSGIMiddleware] *)

Section Middleware.

Context {lib : PyLib}.

(** What the underlying response starter returns (the WSGI [write]
    callable). *)
Variable W : Type.

Definition starter : Type := string -> list header -> exc_info -> result W.

(** The instance attributes.  [application] is fixed at construction and is
    passed to [__call__] as an argument. *)
Record state : Type := mkState {
  decoded_zappa : option string;
  request_cookies : pyval;
  start_response : option starter;
  redirect_content : option string
}.

(** The class-level defaults. *)
Definition init_state : state :=
  {| decoded_zappa := None;
     request_cookies := PDict [];
     start_response := None;
     redirect_content := None |}.

Definition set_decoded_zappa (st : state) (z : option string) : state :=
  {| decoded_zappa := z;
     request_cookies := request_cookies st;
     start_response := start_response st;
     redirect_content := redirect_content st |}.

Definition set_request_cookies (st : state) (v : pyval) : state :=
  {| decoded_zappa := decoded_zappa st;
     request_cookies := v;
     start_response := start_response st;
     redirect_content := redirect_content st |}.

Definition set_start_response (st : state) (sr : option starter) : state :=
  {| decoded_zappa := decoded_zappa st;
     request_cookies := request_cookies st;
     start_response := sr;
     redirect_content := redirect_content st |}.

Definition set_redirect_content (st : state) (c : option string) : state :=
  {| decoded_zappa := decoded_zappa st;
     request_cookies := request_cookies st;
     start_response := start_response st;
     redirect_content := c |}.

(** *** [encode_response] *)

(** [[(header[0], header[1]) for header in headers if header[0] != 'Set-Cookie']] *)
Definition new_headers (headers : list header) : list header :=
  map (fun h => (fst h, snd h)) (filter (fun h => negb (is_set_cookie h)) headers).

(** [header[1].split('=', 1)[0].strip()] *)
Definition directive_name (h : string) : result string :=
  n <- index (Str.split1 "=" h) 0 ;; Ok (Str.strip n).

(** [header[1].split('=', 1)[1]] *)
Definition directive_value (h : string) : result string :=
  index (Str.split1 "=" h) 1.

(** [{header[1].split('=', 1)[0].strip(): header[1].split('=', 1)[1]}] *)
Definition cookie_dict (h : header) : result dict :=
  n <- directive_name (snd h) ;;
  v <- directive_value (snd h) ;;
  Ok [(n, PStr v)].

Definition cookie_dicts (headers : list header) : result (list dict) :=
  mapM cookie_dict (filter is_set_cookie headers).

(** [map(self.request_cookies.update, cookie_dicts)]: in Python 2 [map]
    builds its list at once, so every update is applied, in order. *)
Definition update_all (jar : dict) (cds : list dict) : dict :=
  fold_left Dict.update cds jar.

Definition encode_response (st : state) (status : string)
    (headers : list header) (exc : exc_info) : state * result W :=
  let nh := new_headers headers in
  match cookie_dicts headers with
  | Raise e => (st, Raise e)
  | Ok cds =>
      match request_cookies st with
      | PDict jar =>
          let st' := set_request_cookies st (PDict (update_all jar cds)) in
          match start_response st' with
          | Some sr => (st', sr status nh exc)
          | None => (st', Raise TypeError)
          end
      | _ => (st, Raise AttributeError)
      end
  end.

(** *** [decode_zappa_cookie] *)

Definition decode_zappa_cookie (st : state) (encoded_zappa : string)
    : state * result unit :=
  match b58decode encoded_zappa with
  | None => (st, Raise ValueError)
  | Some dz =>
      let st1 := set_decoded_zappa st (Some dz) in
      match json_loads dz with
      | None => (st1, Raise ValueError)
      | Some v => (set_request_cookies st1 v, Ok tt)
      end
  end.

(** *** [iter_cookies_expires] *)

Definition fmt_Y : string := "%a, %d-%b-%Y %H:%M:%S GMT".
Definition fmt_y : string := "%a, %d-%b-%y %H:%M:%S GMT".

(** The [try]/[except ValueError] around the two [time.strptime] calls: the
    second call is outside any handler. *)
Definition parse_expires (date : string) : result struct_time :=
  match strptime date fmt_Y with
  | Some exp => Ok exp
  | None =>
      match strptime date fmt_y with
      | Some exp => Ok exp
      | None => Raise ValueError
      end
  end.

(** The inner [for kvp in kvps] loop up to its [break]: the first stripped
    field that contains [expires], whatever the case of its letters. *)
Definition expires_kvp (cookie : string) : option string :=
  find (fun kvp => Str.contains "expires" (Str.lower kvp))
       (map Str.strip (Str.split ";" cookie)).

(** The body of the outer loop for one item: [None] when nothing is yielded
    for it, otherwise the expiration yielded or the exception raised. *)
Definition cookie_expires (name : string) (value : pyval)
    : option (result struct_time) :=
  match value with
  | PStr v =>
      let cookie := (name ++ "=" ++ v)%string in
      if Nat.eqb (Str.count "=" cookie) 1 then None
      else match expires_kvp cookie with
           | None => None
           | Some kvp =>
               Some (date <- index (Str.split "=" kvp) 1 ;; parse_expires date)
           end
  | _ => None
  end.

Fixpoint iter_items (items : dict) : gen (string * struct_time) :=
  match items with
  | [] => Stop
  | (name, value) :: rest =>
      match cookie_expires name value with
      | None => iter_items rest
      | Some (Ok exp) => Yield (name, exp) (iter_items rest)
      | Some (Raise e) => Throw e
      end
  end.

(** [self.request_cookies.items()] is a list in Python 2: the generator
    walks a snapshot taken when it starts. *)
Definition iter_cookies_expires (st : state) : gen (string * struct_time) :=
  match request_cookies st with
  | PDict jar => iter_items jar
  | _ => Throw AttributeError
  end.

(** *** [filter_expired_cookies] *)

(** [del(self.request_cookies[name])] *)
Definition del_request_cookie (st : state) (name : string) : state * result unit :=
  match request_cookies st with
  | PDict jar =>
      match Dict.delitem jar name with
      | Ok jar' => (set_request_cookies st (PDict jar'), Ok tt)
      | Raise e => (st, Raise e)
      end
  | _ => (st, Raise TypeError)
  end.

Fixpoint filter_loop (now : struct_time) (g : gen (string * struct_time))
    (st : state) : state * result unit :=
  match g with
  | Stop => (st, Ok tt)
  | Throw e => (st, Raise e)
  | Yield (name, exp) rest =>
      if struct_time_lt exp now then
        match del_request_cookie st name with
        | (st', Ok _) => filter_loop now rest st'
        | (st', Raise e) => (st', Raise e)
        end
      else filter_loop now rest st
  end.

(** [now] stands for the value of [time.gmtime()] read at the start. *)
Definition filter_expired_cookies (now : struct_time) (st : state)
    : state * result unit :=
  filter_loop now (iter_cookies_expires st) st.

(** *** [cookie_environ_string] *)

Fixpoint str_list (items : dict) : list string :=
  match items with
  | [] => []
  | (key, value) :: rest =>
      match value with
      | PStr v => (key ++ "=" ++ v)%string :: str_list rest
      | _ => str_list rest
      end
  end.

Definition cookie_environ_string (st : state) : result string :=
  match request_cookies st with
  | PDict jar => Ok (Str.join ";" (str_list jar))
  | _ => Raise AttributeError
  end.

(** *** The wrapped application and [__call__] *)

(** A run of the wrapped application, as far as the middleware can observe
    it: it may call the response starter it was handed (that is
    [self.encode_response]) and go on according to what the call returned or
    raised, the redirect-injection hook may write [redirect_content] in the
    meantime, and in the end the application returns its response (a list of
    body chunks) or raises. *)
Inductive app_run : Type :=
| AppReturn (response : list string)
| AppRaise (e : exn)
| AppStartResponse (status : string) (headers : list header) (exc : exc_info)
    (k : result W -> app_run)
| AppStage (content : option string) (k : app_run).

Definition application : Type := dict -> app_run.

Fixpoint run_app (a : app_run) (st : state) : state * result (list string) :=
  match a with
  | AppReturn response => (st, Ok response)
  | AppRaise e => (st, Raise e)
  | AppStartResponse status headers exc k =>
      let (st', r) := encode_response st status headers exc in
      run_app (k r) st'
  | AppStage content k => run_app k (set_redirect_content st content)
  end.

(** [parsed] after [parsed.pop('zappa', None)] *)
Definition parsed_cookies (environ : dict) : dict :=
  Dict.pop (parse_cookie environ) "zappa".

(** [environ] after [environ[u'HTTP_COOKIE'] = parsed]: the environment the
    wrapped application is called with.  (In Python the mapping stored there
    is the object held by [self.request_cookies]; the model hands over its
    contents at the time of the call.) *)
Definition app_environ (environ : dict) : dict :=
  Dict.set environ "HTTP_COOKIE" (PDict (parsed_cookies environ)).

(** [[self.redirect_content for item in response]] when the slot is true,
    then the slot is reset. *)
Definition smash (content : option string) (response : list string) : list string :=
  match content with
  | Some c => if truthy content then map (fun _ => c) response else response
  | None => response
  end.

Definition __call__ (st : state) (app : application) (environ : dict)
    (sr : starter) : state * result (list string) :=
  let st1 := set_start_response st (Some sr) in
  let st2 := set_request_cookies st1 (PDict (parsed_cookies environ)) in
  match run_app (app (app_environ environ)) st2 with
  | (st3, Raise e) => (st3, Raise e)
  | (st3, Ok response) =>
      (set_redirect_content st3 None, Ok (smash (redirect_content st3) response))
  end.

End Middleware.

Arguments mkState {W}.
Arguments init_state {W}.
Arguments AppReturn {W}.
Arguments AppRaise {W}.
Arguments AppStartResponse {W}.
Arguments AppStage {W}.
Arguments set_decoded_zappa {W}.
Arguments set_request_cookies {W}.
Arguments set_start_response {W}.
Arguments set_redirect_content {W}.
Arguments decoded_zappa {W}.
Arguments request_cookies {W}.
Arguments start_response {W}.
Arguments redirect_content {W}.
Arguments encode_response {W}.
Arguments decode_zappa_cookie {lib W}.
Arguments iter_cookies_expires {lib W}.
Arguments del_request_cookie {W}.
Arguments filter_loop {lib W}.
Arguments filter_expired_cookies {lib W}.
Arguments cookie_environ_string {W}.
Arguments run_app {W}.
Arguments __call__ {lib W}.

(** ** A reference implementation of the library calls

    Used to run the middleware on concrete requests.  Each function follows
    its library on the inputs it accepts and accepts the common forms only:
    dates with two-digit day, hour, minute and second (the library also
    takes one digit), JSON without escapes or floats (reported as
    [ValueError]), cookie headers without quoting (and cookies named like an
    attribute, [path], [expires] and so on, are kept). *)

Module Ref.

Definition digit (a : ascii) : option Z :=
  let n := nat_of_ascii a in
  if Nat.leb 48 n && Nat.leb n 57 then Some (Z.of_nat (n - 48)) else None.

Fixpoint number_from (acc : Z) (s : string) : option Z :=
  match s with
  | EmptyString => Some acc
  | String a s' =>
      match digit a with
      | Some d => number_from (10 * acc + d) s'
      | None => None
      end
  end.

(** A non-empty run of decimal digits. *)
Definition number (s : string) : option Z :=
  match s with
  | EmptyString => None
  | _ => number_from 0 s
  end.

Fixpoint position (x : string) (l : list string) : option Z :=
  match l with
  | [] => None
  | y :: l' =>
      if String.eqb x y then Some 0%Z
      else option_map Z.succ (position x l')
  end.

Definition weekdays : list string :=
  ["mon"; "tue"; "wed"; "thu"; "fri"; "sat"; "sun"].

Definition months : list string :=
  ["jan"; "feb"; "mar"; "apr"; "may"; "jun";
   "jul"; "aug"; "sep"; "oct"; "nov"; "dec"].

Definition is_leap (y : Z) : bool :=
  ((y mod 4 =? 0) && negb (y mod 100 =? 0) || (y mod 400 =? 0))%Z.

Definition days_in_month (y m : Z) : Z :=
  (if m =? 2 then (if is_leap y then 29 else 28)
   else if (m =? 4) || (m =? 6) || (m =? 9) || (m =? 11) then 30
   else 31)%Z.

Fixpoint days_before (y : Z) (m : nat) : Z :=
  match m with
  | O => 0%Z
  | S m' => (days_before y m' + days_in_month y (Z.of_nat m))%Z
  end.

(** [%y]: 69-99 are 1969-1999, 0-68 are 2000-2068. *)
Definition century (yy : Z) : Z :=
  (if yy <=? 68 then 2000 + yy else 1900 + yy)%Z.

(** The fields after the year: [" HH:MM:SS GMT"]. *)
Definition clock (s : string) : option (Z * Z * Z) :=
  match number (substring 1 2 s), number (substring 4 2 s),
        number (substring 7 2 s) with
  | Some h, Some mi, Some se =>
      if String.eqb (substring 0 1 s) " " && String.eqb (substring 3 1 s) ":"
         && String.eqb (substring 6 1 s) ":"
         && String.eqb (substring 9 4 s) " GMT"
         && Nat.eqb (String.length s) 13
         && (h <=? 23)%Z && (mi <=? 59)%Z && (se <=? 61)%Z
      then Some (h, mi, se) else None
  | _, _, _ => None
  end.

(** [time.struct_time] as its nine fields: [tm_year], [tm_mon], [tm_mday],
    [tm_hour], [tm_min], [tm_sec], [tm_wday], [tm_yday], [tm_isdst]. *)
Definition tm : Type := list Z.

(** [time.strptime] for the two formats of the middleware, on dates written
    [Www, DD-Mon-YEAR HH:MM:SS GMT]. *)
Definition strptime (data format : string) : option tm :=
  let year_width :=
    if String.eqb format "%a, %d-%b-%Y %H:%M:%S GMT" then Some 4
    else if String.eqb format "%a, %d-%b-%y %H:%M:%S GMT" then Some 2
    else None in
  match year_width with
  | None => None
  | Some w =>
      match position (Str.lower (substring 0 3 data)) weekdays,
            number (substring 5 2 data),
            position (Str.lower (substring 8 3 data)) months,
            number (substring 12 w data),
            clock (substring (12 + w) 13 data) with
      | Some wd, Some d, Some m0, Some y0, Some (h, mi, se) =>
          let m := (m0 + 1)%Z in
          let y := if Nat.eqb w 2 then century y0 else y0 in
          if String.eqb (substring 3 2 data) ", "
             && String.eqb (substring 7 1 data) "-"
             && String.eqb (substring 11 1 data) "-"
             && Nat.eqb (String.length data) (25 + w)
             && (1 <=? y)%Z && (1 <=? d)%Z && (d <=? days_in_month y m)%Z
          then Some [y; m; d; h; mi; se; wd;
                     (days_before y (Z.to_nat m0) + d)%Z; (-1)%Z]
          else None
      | _, _, _, _, _ => None
      end
  end.

(** Comparison of tuples: field by field, a proper prefix first. *)
Fixpoint tm_lt (a b : tm) : bool :=
  match a, b with
  | [], [] => false
  | [], _ :: _ => true
  | _ :: _, [] => false
  | x :: a', y :: b' => (x <? y)%Z || ((x =? y)%Z && tm_lt a' b')
  end.

(** [parse_cookie] on the [HTTP_COOKIE] entry of the environment: fields
    separated by [;], each cut at its first [=]; a later field overwrites an
    earlier one of the same name. *)
Definition parse_field (acc : dict) (field : string) : dict :=
  match Str.split1 "=" field with
  | [k; v] => Dict.set acc (Str.strip k) (PStr (Str.strip v))
  | _ => acc
  end.

Definition parse_cookie (environ : dict) : dict :=
  match Dict.get environ "HTTP_COOKIE" with
  | Some (PStr h) => fold_left parse_field (Str.split ";" h) []
  | _ => []
  end.

(** [base58.b58decode] over the Bitcoin alphabet. *)
Definition alphabet : string :=
  "123456789ABCDEFGHJKLMNPQRSTUVWXYZabcdefghijkmnopqrstuvwxyz".

Fixpoint b58_index (a : ascii) (alpha : string) : option N :=
  match alpha with
  | EmptyString => None
  | String b alpha' =>
      if Ascii.eqb a b then Some 0%N else option_map N.succ (b58_index a alpha')
  end.

Fixpoint b58decode_int (acc : N) (s : string) : option N :=
  match s with
  | EmptyString => Some acc
  | String a s' =>
      match b58_index a alphabet with
      | Some d => b58decode_int (58 * acc + d) s'
      | None => None
      end
  end.

Fixpoint leading_ones (s : string) : string * string :=
  match s with
  | String "1" s' => let (z, r) := leading_ones s' in (String zero z, r)
  | _ => (EmptyString, s)
  end.

Fixpoint bytes_of (fuel : nat) (n : N) (acc : string) : string :=
  match fuel with
  | O => acc
  | S fuel' =>
      if (n =? 0)%N then acc
      else bytes_of fuel' (n / 256)%N (String (ascii_of_N (n mod 256)) acc)
  end.

Definition b58decode (v : string) : option string :=
  let (zeros, rest) := leading_ones v in
  match b58decode_int 0 rest with
  | Some n => Some (zeros ++ bytes_of (String.length rest) n EmptyString)%string
  | None => None
  end.

(** [json.loads] for documents without escapes and floats. *)
Definition is_json_space (a : ascii) : bool :=
  let n := nat_of_ascii a in
  Nat.eqb n 32 || Nat.eqb n 9 || Nat.eqb n 10 || Nat.eqb n 13.

Fixpoint skip_ws (s : string) : string :=
  match s with
  | String a s' => if is_json_space a then skip_ws s' else s
  | EmptyString => s
  end.

(** The rest of a string literal, after its opening quote. *)
Fixpoint scan_string (s : string) : option (string * string) :=
  match s with
  | EmptyString => None
  | String a s' =>
      let n := nat_of_ascii a in
      if Nat.eqb n 34 then Some (EmptyString, s')
      else if Nat.eqb n 92 || Nat.ltb n 32 then None
      else match scan_string s' with
           | Some (t, r) => Some (String a t, r)
           | None => None
           end
  end.

Fixpoint scan_digits (s : string) : string * string :=
  match s with
  | String a s' =>
      match digit a with
      | Some _ => let (d, r) := scan_digits s' in (String a d, r)
      | None => (EmptyString, s)
      end
  | EmptyString => (EmptyString, s)
  end.

Definition ends_number (r : string) : bool :=
  match r with
  | String a _ => negb (Ascii.eqb a "." || Ascii.eqb a "e" || Ascii.eqb a "E")
  | EmptyString => true
  end.

Definition scan_int (s : string) : option (Z * string) :=
  let (neg, body) :=
    match s with
    | String "-" s' => (true, s')
    | _ => (false, s)
    end in
  let (d, r) := scan_digits body in
  match number d with
  | Some z =>
      if ends_number r && (Nat.eqb (String.length d) 1 || negb (String.prefix "0" d))
      then Some (if neg then (- z)%Z else z, r) else None
  | None => None
  end.

Definition literal (word : string) (v : pyval) (s : string)
    : option (pyval * string) :=
  if String.prefix word s
  then Some (v, substring (String.length word) (String.length s) s)
  else None.

Fixpoint value (fuel : nat) (s : string) : option (pyval * string) :=
  match fuel with
  | O => None
  | S f =>
      match skip_ws s with
      | EmptyString => None
      | String a s' =>
          let n := nat_of_ascii a in
          if Nat.eqb n 34 then
            match scan_string s' with
            | Some (t, r) => Some (PStr t, r)
            | None => None
            end
          else if Ascii.eqb a "[" then
            match skip_ws s' with
            | String "]" r => Some (PList [], r)
            | _ => match elements f s' with
                   | Some (vs, r) => Some (PList vs, r)
                   | None => None
                   end
            end
          else if Ascii.eqb a "{" then
            match skip_ws s' with
            | String "}" r => Some (PDict [], r)
            | _ => match members f s' with
                   | Some (kvs, r) =>
                       Some (PDict (fold_left (fun d kv => Dict.set d (fst kv) (snd kv))
                                              kvs []), r)
                   | None => None
                   end
            end
          else if Ascii.eqb a "n" then literal "null" PNone (String a s')
          else if Ascii.eqb a "t" then literal "true" (PBool true) (String a s')
          else if Ascii.eqb a "f" then literal "false" (PBool false) (String a s')
          else match scan_int (String a s') with
               | Some (z, r) => Some (PInt z, r)
               | None => None
               end
      end
  end
with elements (fuel : nat) (s : string) : option (list pyval * string) :=
  match fuel with
  | O => None
  | S f =>
      match value f s with
      | Some (v, r) =>
          match skip_ws r with
          | String "," r' =>
              match elements f r' with
              | Some (vs, r'') => Some (v :: vs, r'')
              | None => None
              end
          | String "]" r' => Some ([v], r')
          | _ => None
          end
      | None => None
      end
  end
with members (fuel : nat) (s : string) : option (list (string * pyval) * string) :=
  match fuel with
  | O => None
  | S f =>
      match skip_ws s with
      | String a s' =>
          if Nat.eqb (nat_of_ascii a) 34 then
            match scan_string s' with
            | Some (k, r) =>
                match skip_ws r with
                | String ":" r1 =>
                    match value f r1 with
                    | Some (v, r2) =>
                        match skip_ws r2 with
                        | String "," r3 =>
                            match members f r3 with
                            | Some (kvs, r4) => Some ((k, v) :: kvs, r4)
                            | None => None
                            end
                        | String "}" r3 => Some ([(k, v)], r3)
                        | _ => None
                        end
                    | None => None
                    end
                | _ => None
                end
            | None => None
            end
          else None
      | EmptyString => None
      end
  end.

Definition json_loads (s : string) : option pyval :=
  match value (S (String.length s)) s with
  | Some (v, r) =>
      match skip_ws r with
      | EmptyString => Some v
      | _ => None
      end
  | None => None
  end.

#[export] Instance lib : PyLib := {
  struct_time := tm;
  struct_time_lt := tm_lt;
  strptime := Ref.strptime;
  parse_cookie := Ref.parse_cookie;
  b58decode := Ref.b58decode;
  json_loads := Ref.json_loads
}.

(** A response starter that records the call made to it. *)
Definition recorder : starter sr_call :=
  fun status headers exc =>
    Ok {| sr_status := status; sr_headers := headers; sr_exc_info := exc |}.

End Ref.

(** ** Vocabulary of the properties *)

Section Vocabulary.

Context {lib : PyLib}.
Variable W : Type.

(** The one-entry dict [cd] is the one built from the directive [h]. *)
Definition names_value (h : header) (cd : dict) : Prop :=
  exists n v, directive_name (snd h) = Ok n /\ directive_value (snd h) = Ok v /\
              cd = [(n, PStr v)].

(** The item yields an expiration that is earlier than [now]. *)
Definition expired (now : struct_time) (name : string) (value : pyval) : bool :=
  match cookie_expires name value with
  | Some (Ok exp) => struct_time_lt exp now
  | _ => false
  end.

(** Reading the expiration of the item raises. *)
Definition raises (name : string) (value : pyval) : bool :=
  match cookie_expires name value with
  | Some (Raise _) => true
  | _ => false
  end.

(** The entry is not expired at [now]. *)
Definition fresh (now : struct_time) (kv : string * pyval) : bool :=
  negb (expired now (fst kv) (snd kv)).

(** The items of [items] under the key of [kv] include an expired one. *)
Definition hit (now : struct_time) (items : dict) (kv : string * pyval) : bool :=
  existsb (fun it => String.eqb (fst it) (fst kv) && expired now (fst it) (snd it))
          items.

(** The state in which [__call__] invokes the application. *)
Definition at_application (st : state W) (environ : dict) (sr : starter W)
    : state W :=
  set_request_cookies (set_start_response st (Some sr))
    (PDict (parsed_cookies environ)).

(** The run does not involve the redirect-injection hook. *)
Fixpoint no_stage (a : app_run W) : Prop :=
  match a with
  | AppReturn _ => True
  | AppRaise _ => True
  | AppStartResponse _ _ _ k => forall r, no_stage (k r)
  | AppStage _ _ => False
  end.

End Vocabulary.

Arguments at_application {lib W}.
Arguments no_stage {W}.


(** ** Sample instances, jars and requests *)

Module Samples.

(** An instance whose jar is [{a: '1', b: '2'}] and whose response starter
    records its call. *)
Definition st_ab : state sr_call :=
  mkState None (PDict [("a", PStr "1"); ("b", PStr "2")]) (Some Ref.recorder) None.

(** An instance with an empty jar. *)
Definition st_empty : state sr_call :=
  mkState None (PDict []) (Some Ref.recorder) None.

(** 1 January 2021, 00:00:00, as [time.gmtime()] returns it. *)
Definition new_year_2021 : Ref.tm := [2021; 1; 1; 0; 0; 0; 4; 1; 0]%Z.

(** 1 January 2020, 00:00:00, a Wednesday, as [time.gmtime()] returns it:
    [tm_isdst] is 0, where [time.strptime] gives -1. *)
Definition new_year_2020 : Ref.tm := [2020; 1; 1; 0; 0; 0; 2; 1; 0]%Z.

(** 31 December 2019, 00:00:00. *)
Definition new_years_eve_2019 : Ref.tm := [2019; 12; 31; 0; 0; 0; 1; 365; 0]%Z.

Definition with_jar (jar : dict) : state sr_call :=
  mkState None (PDict jar) (Some Ref.recorder) None.

Definition jar_session : dict :=
  [("sid", PStr "abc; expires=Wed, 01-Jan-2020 00:00:00 GMT; Path=/");
   ("theme", PStr "dark")].

Definition jar_legacy : dict :=
  [("sid", PStr "abc; expires=Wed, 01-Jan-20 00:00:00 GMT")].

Definition jar_unparseable : dict :=
  [("a", PStr "1; expires=never");
   ("b", PStr "2; expires=Wed, 01-Jan-2020 00:00:00 GMT")].

Definition jar_mixed : dict :=
  [("a", PStr "1"); ("n", PInt 3); ("b", PStr "2")].

(** An application that returns, as its body, the names of the cookies in
    the environment it was called with. *)
Definition cookie_names : application sr_call :=
  fun environ =>
    match Dict.get environ "HTTP_COOKIE" with
    | Some (PDict cookies) => AppReturn (Dict.keys cookies)
    | _ => AppReturn ["HTTP_COOKIE is not a mapping"]
    end.

(** A request whose [Cookie] header carries the packed jar [{"a": "1"}]. *)
Definition packed_request : dict :=
  [("HTTP_COOKIE", PStr "zappa=7vEqv9ieRF2uZe")].

Definition mixed_request : dict :=
  [("PATH_INFO", PStr "/"); ("HTTP_COOKIE", PStr "zappa=7vEqv9ieRF2uZe; lang=en")].

(** An instance on which the override [R] is staged. *)
Definition st_staged : state sr_call :=
  mkState None (PDict []) None (Some "R").

End Samples.

(** * Properties *)

(** ** Dictionaries *)

Module DictFacts.

Lemma get_set_eq (d : dict) (k : string) (v : pyval) :
  Dict.get (Dict.set d k v) k = Some v.
Proof.
  induction d as [|[k' v'] d IH]; simpl.
  - now rewrite String.eqb_refl.
  - destruct (String.eqb k' k) eqn:E; simpl; rewrite E; auto.
Qed.

Lemma get_set_ne (d : dict) (k k' : string) (v : pyval) :
  k <> k' -> Dict.get (Dict.set d k v) k' = Dict.get d k'.
Proof.
  intros Hne. induction d as [|[k0 v0] d IH]; simpl.
  - destruct (String.eqb k k') eqn:E; auto.
    apply String.eqb_eq in E. contradiction.
  - destruct (String.eqb k0 k) eqn:E; simpl.
    + apply String.eqb_eq in E. subst k0.
      destruct (String.eqb k k') eqn:E'; auto.
      apply String.eqb_eq in E'. contradiction.
    + destruct (String.eqb k0 k'); auto.
Qed.

Lemma get_pop_eq (d : dict) (k : string) : Dict.get (Dict.pop d k) k = None.
Proof.
  induction d as [|[k' v'] d IH]; simpl; auto.
  destruct (String.eqb k' k) eqn:E; simpl; auto.
  now rewrite E.
Qed.

Lemma get_pop_ne (d : dict) (k k' : string) :
  k <> k' -> Dict.get (Dict.pop d k) k' = Dict.get d k'.
Proof.
  intros Hne. induction d as [|[k0 v0] d IH]; simpl; auto.
  destruct (String.eqb k0 k) eqn:E; simpl.
  - apply String.eqb_eq in E. subst k0.
    destruct (String.eqb k k') eqn:E'; auto.
    apply String.eqb_eq in E'. contradiction.
  - now rewrite IH.
Qed.

Lemma get_in (d : dict) (k : string) (v : pyval) :
  Dict.get d k = Some v -> In (k, v) d.
Proof.
  induction d as [|[k' v'] d IH]; simpl; [discriminate|].
  destruct (String.eqb k' k) eqn:E.
  - apply String.eqb_eq in E. intros [= ->]. subst. now left.
  - auto.
Qed.

Lemma in_mem (d : dict) (k : string) (v : pyval) :
  In (k, v) d -> Dict.mem d k = true.
Proof.
  unfold Dict.mem.
  induction d as [|[k' v'] d IH]; simpl; [tauto|].
  intros [[= -> ->]|Hin].
  - now rewrite String.eqb_refl.
  - destruct (String.eqb k' k); auto.
Qed.

(** In a dict (distinct keys) an item is found under its key. *)
Lemma wf_in_get (d : dict) (k : string) (v : pyval) :
  Dict.wf d = true -> In (k, v) d -> Dict.get d k = Some v.
Proof.
  induction d as [|[k' v'] d IH]; simpl; [tauto|].
  intros Hwf Hin. apply andb_prop in Hwf as [Hk Hwf].
  destruct Hin as [[= -> ->]|Hin].
  - now rewrite String.eqb_refl.
  - destruct (String.eqb k' k) eqn:E; auto.
    apply String.eqb_eq in E. subst k'.
    apply in_mem in Hin. rewrite Hin in Hk. discriminate.
Qed.

Lemma update_singleton (d : dict) (k : string) (v : pyval) :
  Dict.update d [(k, v)] = Dict.set d k v.
Proof. reflexivity. Qed.

End DictFacts.

(** ** The response interceptor *)

Section EncodeResponse.

Variable W : Type.
Implicit Types (st : state W) (jar : dict) (headers : list header).

Lemma split1_cut (c : ascii) (s : string) :
  0 < Str.count c s -> exists a b, Str.split1 c s = [a; b].
Proof.
  induction s as [|x s IH]; simpl; [lia|].
  destruct (Str.eq_char x c); [eauto|].
  intros H. destruct (IH H) as (a & b & ->). eauto.
Qed.

Lemma split1_whole (c : ascii) (s : string) :
  Str.count c s = 0 -> Str.split1 c s = [s].
Proof.
  induction s as [|x s IH]; simpl; [reflexivity|].
  destruct (Str.eq_char x c); [discriminate|].
  intros H. now rewrite (IH H).
Qed.

(** A directive with an [=] makes a one-entry dict. *)
Lemma cookie_dict_ok (h : header) :
  0 < Str.count "=" (snd h) ->
  exists n v, directive_name (snd h) = Ok n /\ directive_value (snd h) = Ok v /\
              cookie_dict h = Ok [(n, PStr v)].
Proof.
  intros H. destruct (split1_cut _ _ H) as (a & b & E).
  exists (Str.strip a), b.
  unfold cookie_dict, directive_name, directive_value. rewrite E. simpl. auto.
Qed.

(** A directive without [=] raises [IndexError]. *)
Lemma cookie_dict_malformed (h : header) :
  Str.count "=" (snd h) = 0 -> cookie_dict h = Raise IndexError.
Proof.
  intros H. unfold cookie_dict, directive_name, directive_value.
  now rewrite (split1_whole _ _ H).
Qed.

Lemma mapM_cookie_dict (hs : list header) (cds : list dict) :
  mapM cookie_dict hs = Ok cds -> Forall2 names_value hs cds.
Proof.
  revert cds. induction hs as [|h hs IH]; simpl; intros cds.
  - intros [= <-]. constructor.
  - unfold cookie_dict at 1.
    destruct (directive_name (snd h)) as [n|] eqn:En; simpl; [|discriminate].
    destruct (directive_value (snd h)) as [v|] eqn:Ev; simpl; [|discriminate].
    destruct (mapM cookie_dict hs) as [cds'|]; simpl; [|discriminate].
    intros [= <-]. constructor; [|auto].
    exists n, v. auto.
Qed.

Lemma mapM_cookie_dict_ok (hs : list header) :
  (forall h, In h hs -> 0 < Str.count "=" (snd h)) ->
  exists cds, mapM cookie_dict hs = Ok cds.
Proof.
  induction hs as [|h hs IH]; simpl; intros Hall; [eauto|].
  destruct (cookie_dict_ok h) as (n & v & _ & _ & ->); [auto|].
  destruct IH as (cds & ->); [auto|]. simpl. eauto.
Qed.

Lemma update_all_untouched (hs : list header) (cds : list dict) jar (name : string) :
  Forall2 names_value hs cds ->
  (forall h, In h hs -> directive_name (snd h) <> Ok name) ->
  Dict.get (update_all jar cds) name = Dict.get jar name.
Proof.
  intros HF. revert jar. induction HF as [|h cd hs cds (n & v & En & _ & ->) _ IH];
    intros jar Hno; [reflexivity|].
  unfold update_all in *. simpl.
  rewrite IH by (intros; apply Hno; now right).
  apply DictFacts.get_set_ne. intros ->. apply (Hno h); [now left|assumption].
Qed.

Lemma update_all_keeps (hs : list header) (cds : list dict) jar (name : string) :
  Forall2 names_value hs cds ->
  Dict.mem jar name = true -> Dict.mem (update_all jar cds) name = true.
Proof.
  intros HF. revert jar. induction HF as [|h cd hs cds (n & v & _ & _ & ->) _ IH];
    intros jar Hmem; [assumption|].
  unfold update_all in *. simpl. apply IH.
  unfold Dict.mem in *.
  destruct (String.eqb n name) eqn:E.
  - apply String.eqb_eq in E. subst. now rewrite DictFacts.get_set_eq.
  - rewrite DictFacts.get_set_ne; [assumption|].
    intros ->. now rewrite String.eqb_refl in E.
Qed.

Lemma update_all_app jar (a b : list dict) :
  update_all jar (a ++ b) = update_all (update_all jar a) b.
Proof. apply fold_left_app. Qed.

Lemma filter_set_cookie_in headers (h : header) :
  In h (filter is_set_cookie headers) -> In ("Set-Cookie", snd h) headers.
Proof.
  intros Hin. apply filter_In in Hin as [Hin Hsc].
  unfold is_set_cookie in Hsc. apply String.eqb_eq in Hsc.
  destruct h as [a b]. simpl in *. now subst.
Qed.

(** The jar held by the state after [encode_response], whatever it
    returns or raises. *)
Lemma encode_response_jar st (status : string) headers (exc : exc_info) jar :
  request_cookies st = PDict jar ->
  request_cookies (fst (encode_response st status headers exc)) =
    PDict (match cookie_dicts headers with
           | Ok cds => update_all jar cds
           | Raise _ => jar
           end).
Proof.
  intros Hjar. unfold encode_response.
  destruct (cookie_dicts headers) as [cds|e]; simpl; [|assumption].
  rewrite Hjar. simpl.
  destruct (start_response st); reflexivity.
Qed.

(** [encode_response] leaves the body-override slot alone. *)
Lemma encode_response_redirect st (status : string) headers (exc : exc_info) :
  redirect_content (fst (encode_response st status headers exc)) =
    redirect_content st.
Proof.
  unfold encode_response.
  destruct (cookie_dicts headers); simpl; [|reflexivity].
  destruct (request_cookies st); simpl; try reflexivity.
  destruct (start_response st); reflexivity.
Qed.

(** No header named [Set-Cookie] is left in the list handed on. *)
Lemma new_headers_no_set_cookie headers :
  filter is_set_cookie (new_headers headers) = [].
Proof.
  unfold new_headers. induction headers as [|[a b] hs IH]; simpl; [reflexivity|].
  destruct (is_set_cookie (a, b)) eqn:E; simpl; [assumption|].
  unfold is_set_cookie in *. simpl in *. now rewrite E.
Qed.

End EncodeResponse.

(** *** Examples *)

Module Examples.

Example partial_update :
  request_cookies
    (fst (encode_response Samples.st_ab "200 OK" [("Set-Cookie", "a=9")] None))
  = PDict [("a", PStr "9"); ("b", PStr "2")].
Proof. reflexivity. Qed.

Example malformed_directive :
  encode_response Samples.st_ab "200 OK" [("Set-Cookie", "a=9"); ("Set-Cookie", "junk")] None
  = (Samples.st_ab, Raise IndexError).
Proof. reflexivity. Qed.

End Examples.

(** C1, as the code behaves on a response that sets a cookie: the call
    [encode_response('200 OK', [('Content-Type', 'text/html'),
    ('Set-Cookie', 'a=1')])] on an empty jar merges [a] into the jar and
    invokes the underlying response starter with the pass-through headers
    only.  No [Set-Cookie] header is handed on: the jar is not encoded and
    the aggregate cookie is not emitted. *)
Theorem encode_response_emits_no_aggregate :
  encode_response Samples.st_empty "200 OK"
    [("Content-Type", "text/html"); ("Set-Cookie", "a=1")] None
  = (set_request_cookies Samples.st_empty (PDict [("a", PStr "1")]),
     Ok {| sr_status := "200 OK";
           sr_headers := [("Content-Type", "text/html")];
           sr_exc_info := None |})
  /\ filter is_set_cookie [("Content-Type", "text/html")] = [].
Proof. split; reflexivity. Qed.

(** C3: merging the [Set-Cookie] directives of a response into the jar
    removes no entry, and a name that no directive names keeps the value it
    had, whatever [encode_response] returns or raises. *)
Theorem merge_keeps_untouched_cookies (W : Type) (st : state W)
    (status : string) (headers : list header) (exc : exc_info) (jar : dict) :
  request_cookies st = PDict jar ->
  exists jar',
    request_cookies (fst (encode_response st status headers exc)) = PDict jar' /\
    (forall name, Dict.mem jar name = true -> Dict.mem jar' name = true) /\
    (forall name,
        (forall h, In ("Set-Cookie", h) headers -> directive_name h <> Ok name) ->
        Dict.get jar' name = Dict.get jar name).
Proof.
  intros Hjar. eexists. split; [apply encode_response_jar; eassumption|].
  unfold cookie_dicts.
  destruct (mapM cookie_dict (filter is_set_cookie headers)) as [cds|e] eqn:E;
    [|split; auto].
  apply mapM_cookie_dict in E. split.
  - intros name. now apply update_all_keeps with (hs := filter is_set_cookie headers).
  - intros name Hno.
    apply update_all_untouched with (hs := filter is_set_cookie headers); [assumption|].
    intros h Hin. apply Hno. now apply filter_set_cookie_in.
Qed.

Lemma merge_keeps_untouched_cookies_witness :
  request_cookies Samples.st_ab = PDict [("a", PStr "1"); ("b", PStr "2")] /\
  exists jar',
    request_cookies
      (fst (encode_response Samples.st_ab "200 OK" [("Set-Cookie", "a=9")] None))
    = PDict jar' /\
    (forall name, Dict.mem [("a", PStr "1"); ("b", PStr "2")] name = true ->
                  Dict.mem jar' name = true) /\
    (forall name,
        (forall h, In ("Set-Cookie", h) [("Set-Cookie", "a=9")] ->
                   directive_name h <> Ok name) ->
        Dict.get jar' name = Dict.get [("a", PStr "1"); ("b", PStr "2")] name).
Proof.
  split; [reflexivity|].
  apply (merge_keeps_untouched_cookies sr_call Samples.st_ab "200 OK"
           [("Set-Cookie", "a=9")] None).
  reflexivity.
Defined.

(** C7: when every [Set-Cookie] directive of the response has an [=], the
    jar entry of a name after the merge is the value of the last directive
    in header order that names it. *)
Theorem last_set_cookie_wins (W : Type) (st : state W) (status : string)
    (pre post : list header) (d name value : string) (exc : exc_info)
    (jar : dict) :
  request_cookies st = PDict jar ->
  (forall h, In ("Set-Cookie", h) (pre ++ ("Set-Cookie", d) :: post) ->
             0 < Str.count "=" h) ->
  directive_name d = Ok name ->
  directive_value d = Ok value ->
  (forall h, In ("Set-Cookie", h) post -> directive_name h <> Ok name) ->
  exists jar',
    request_cookies
      (fst (encode_response st status (pre ++ ("Set-Cookie", d) :: post) exc))
    = PDict jar' /\
    Dict.get jar' name = Some (PStr value).
Proof.
  intros Hjar Hwell Hn Hv Hlater.
  eexists. split; [apply encode_response_jar; eassumption|].
  unfold cookie_dicts.
  destruct (mapM_cookie_dict_ok (filter is_set_cookie (pre ++ ("Set-Cookie", d) :: post)))
    as (cds & E).
  { intros h Hin. apply Hwell. now apply filter_set_cookie_in. }
  rewrite E. apply mapM_cookie_dict in E.
  rewrite filter_app in E. simpl in E.
  apply Forall2_app_inv_l in E as (c1 & c2 & _ & H2 & ->).
  inversion H2 as [|h cd hs c3 (n & v & En & Ev & ->) H3]; subst.
  simpl in En, Ev. rewrite Hn in En. rewrite Hv in Ev.
  injection En as <-. injection Ev as <-.
  rewrite update_all_app.
  change (update_all (update_all jar c1) ([(name, PStr value)] :: c3))
    with (update_all (Dict.set (update_all jar c1) name (PStr value)) c3).
  rewrite update_all_untouched with (hs := filter is_set_cookie post); [|assumption|].
  - apply DictFacts.get_set_eq.
  - intros h Hin. apply Hlater. now apply filter_set_cookie_in.
Qed.

Lemma last_set_cookie_wins_witness :
  exists jar',
    request_cookies
      (fst (encode_response Samples.st_empty "200 OK"
              [("Set-Cookie", "x=1"); ("Set-Cookie", "x=2")] None))
    = PDict jar' /\
    Dict.get jar' "x" = Some (PStr "2").
Proof.
  apply (last_set_cookie_wins sr_call Samples.st_empty "200 OK"
           [("Set-Cookie", "x=1")] [] "x=2" "x" "2" None []).
  - reflexivity.
  - intros h [[= <-]|[[= <-]|[]]]; simpl; lia.
  - reflexivity.
  - reflexivity.
  - intros h [].
Defined.

(** ** The expiration filter *)

Section Expiration.

Context {lib : PyLib}.
Variable W : Type.
Variable now : struct_time.
Implicit Types (st : state W) (jar cur items : dict).

Lemma pop_absent cur (k : string) :
  Dict.mem cur k = false -> Dict.pop cur k = cur.
Proof.
  unfold Dict.mem, Dict.pop.
  induction cur as [|[k' v'] cur IH]; simpl; [reflexivity|].
  destruct (String.eqb k' k); simpl; [discriminate|].
  intros H. now rewrite IH.
Qed.

Lemma wf_pop cur (k : string) : Dict.wf cur = true -> Dict.wf (Dict.pop cur k) = true.
Proof.
  induction cur as [|[k' v'] cur IH]; simpl; [reflexivity|].
  intros H. apply andb_prop in H as [Hk Hwf].
  fold (Dict.pop cur k).
  destruct (String.eqb k' k) eqn:E; simpl; [auto|].
  rewrite IH by assumption. rewrite andb_true_r.
  unfold Dict.mem in *.
  destruct (String.eqb k k') eqn:E'.
  - apply String.eqb_eq in E'. subst. now rewrite String.eqb_refl in E.
  - rewrite DictFacts.get_pop_ne; [assumption|].
    intros ->. now rewrite String.eqb_refl in E'.
Qed.

Lemma set_request_cookies_same st (v : pyval) :
  request_cookies st = v -> set_request_cookies st v = st.
Proof. destruct st. simpl. now intros ->. Qed.

(** Whatever the outcome of the loop, it changes the jar only, and an entry
    is only lost when one of the items walked has its name and is expired. *)
Lemma filter_loop_safe items : forall st cur st' r,
  request_cookies st = PDict cur ->
  filter_loop now (iter_items items) st = (st', r) ->
  exists cur',
    st' = set_request_cookies st (PDict cur') /\
    forall name,
      (forall v, In (name, v) items -> expired now name v = false) ->
      Dict.get cur' name = Dict.get cur name.
Proof.
  induction items as [|[k v] items IH]; intros st cur st' r Hjar; simpl.
  - intros [= <- <-]. exists cur. now rewrite set_request_cookies_same.
  - destruct (cookie_expires k v) as [[exp|e]|] eqn:Ece; simpl.
    + destruct (struct_time_lt exp now) eqn:Hlt.
      * unfold del_request_cookie. rewrite Hjar. unfold Dict.delitem.
        destruct (Dict.mem cur k);
          [|intros [= <- <-]; exists cur; now rewrite set_request_cookies_same].
        intros Hloop.
        apply IH with (cur := Dict.pop cur k) in Hloop as (cur' & Hc & Hkeep);
          [|reflexivity].
        exists cur'. split; [assumption|].
        intros name Hno. rewrite Hkeep by (intros; apply Hno; now right).
        apply DictFacts.get_pop_ne. intros ->.
        specialize (Hno v (or_introl eq_refl)).
        unfold expired in Hno. rewrite Ece, Hlt in Hno. discriminate.
      * intros Hloop. apply IH with (cur := cur) in Hloop as (cur' & Hc & Hkeep);
          [|assumption].
        exists cur'. split; [assumption|].
        intros name Hno. apply Hkeep. intros; apply Hno; now right.
    + intros [= <- <-]. exists cur. now rewrite set_request_cookies_same.
    + intros Hloop. apply IH with (cur := cur) in Hloop as (cur' & Hc & Hkeep);
        [|assumption].
      exists cur'. split; [assumption|].
      intros name Hno. apply Hkeep. intros; apply Hno; now right.
Qed.


(** When some item raises, the loop ends in an exception. *)
Lemma filter_loop_raises items : forall st,
  (exists k v, In (k, v) items /\ raises k v = true) ->
  is_ok (snd (filter_loop now (iter_items items) st)) = false.
Proof.
  induction items as [|[k v] items IH]; intros st (k0 & v0 & Hin & Hr);
    [destruct Hin|].
  simpl. unfold raises in Hr.
  destruct (cookie_expires k v) as [[exp|e]|] eqn:Ece; simpl.
  - destruct Hin as [[= -> ->]|Hin]; [rewrite Ece in Hr; discriminate|].
    destruct (struct_time_lt exp now); [|apply IH; eauto].
    destruct (del_request_cookie st k) as [st1 [u|e]]; [apply IH; eauto|reflexivity].
  - reflexivity.
  - destruct Hin as [[= -> ->]|Hin]; [rewrite Ece in Hr; discriminate|].
    apply IH; eauto.
Qed.

(** The exception that ends the loop is the one of the first item that
    raises. *)
Lemma filter_loop_first_raise (k : string) (v : pyval) (post : dict) (e : exn)
    (pre : dict) : forall st cur,
  request_cookies st = PDict cur ->
  Dict.wf (pre ++ (k, v) :: post) = true ->
  (forall k' v', In (k', v') (pre ++ (k, v) :: post) -> Dict.mem cur k' = true) ->
  (forall k' v', In (k', v') pre -> raises k' v' = false) ->
  cookie_expires k v = Some (Raise e) ->
  snd (filter_loop now (iter_items (pre ++ (k, v) :: post)) st) = Raise e.
Proof.
  induction pre as [|[k0 v0] pre IH]; intros st cur Hjar Hwf Hmem Hnr Hce.
  - simpl. now rewrite Hce.
  - simpl in Hwf. apply andb_prop in Hwf as [Hk Hwf].
    apply negb_true_iff in Hk.
    assert (Hrest : forall k' v', In (k', v') (pre ++ (k, v) :: post) -> k' <> k0).
    { intros k' v' Hin ->. apply DictFacts.in_mem in Hin. congruence. }
    assert (Hmem' : forall k' v', In (k', v') (pre ++ (k, v) :: post) ->
                                  Dict.mem cur k' = true).
    { intros k' v' Hin. apply (Hmem k' v'). now right. }
    assert (Hnr' : forall k' v', In (k', v') pre -> raises k' v' = false).
    { intros k' v' Hin. apply Hnr. now right. }
    pose proof (Hnr k0 v0 (or_introl eq_refl)) as Hr. unfold raises in Hr.
    simpl app. simpl iter_items.
    destruct (cookie_expires k0 v0) as [[exp|e0]|] eqn:Ece0; [|discriminate|].
    + simpl filter_loop. destruct (struct_time_lt exp now).
      * unfold del_request_cookie. rewrite Hjar. unfold Dict.delitem.
        rewrite (Hmem k0 v0 (or_introl eq_refl)).
        apply (IH _ (Dict.pop cur k0)); [reflexivity|assumption| |assumption|assumption].
        intros k' v' Hin. unfold Dict.mem.
        rewrite DictFacts.get_pop_ne by (intros ->; now apply (Hrest k' v')).
        now apply (Hmem' k' v').
      * now apply (IH st cur).
    + now apply (IH st cur).
Qed.




End Expiration.


Section ExpirationFilter.

Context {lib : PyLib}.
Variable W : Type.
Implicit Types (st : state W) (jar : dict).

(** The filter changes the jar only and, whatever its outcome, nothing but
    expired entries is missing afterwards. *)
Lemma filter_keeps st jar (now : struct_time) :
  request_cookies st = PDict jar ->
  Dict.wf jar = true ->
  exists jar',
    fst (filter_expired_cookies now st) = set_request_cookies st (PDict jar') /\
    (forall name v, Dict.get jar name = Some v -> expired now name v = false ->
                    Dict.get jar' name = Some v) /\
    (forall name, Dict.get jar name = None -> Dict.get jar' name = None).
Proof.
  intros Hjar Hwf. unfold filter_expired_cookies, iter_cookies_expires.
  rewrite Hjar.
  destruct (filter_loop now (iter_items jar) st) as [st' r] eqn:Hloop.
  destruct (filter_loop_safe W now jar st jar st' r Hjar Hloop) as (jar' & Hc & Hkeep).
  exists jar'. simpl. split; [assumption|]. split.
  - intros name v Hget Hne. rewrite Hkeep; [assumption|].
    intros v' Hin. apply (DictFacts.wf_in_get _ _ _ Hwf) in Hin. congruence.
  - intros name Hget. rewrite Hkeep; [assumption|].
    intros v' Hin. apply (DictFacts.wf_in_get _ _ _ Hwf) in Hin. congruence.
Qed.


End ExpirationFilter.

Module ExpiryExamples.

Example pruned_after :
  filter_expired_cookies (lib := Ref.lib) Samples.new_year_2021 (Samples.with_jar Samples.jar_session)
  = (Samples.with_jar [("theme", PStr "dark")], Ok tt).
Proof. reflexivity. Qed.

Example kept_before :
  filter_expired_cookies (lib := Ref.lib) Samples.new_years_eve_2019 (Samples.with_jar Samples.jar_session)
  = (Samples.with_jar Samples.jar_session, Ok tt).
Proof. reflexivity. Qed.

Example legacy_year :
  strptime (PyLib := Ref.lib) "Wed, 01-Jan-20 00:00:00 GMT" fmt_Y = None /\
  filter_expired_cookies (lib := Ref.lib) Samples.new_year_2021 (Samples.with_jar Samples.jar_legacy)
  = (Samples.with_jar [], Ok tt).
Proof. split; reflexivity. Qed.

Example missing_date :
  cookie_expires (lib := Ref.lib) "b" (PStr "x=2; expires") = Some (Raise IndexError).
Proof. reflexivity. Qed.

Example environ_string :
  cookie_environ_string (Samples.with_jar Samples.jar_mixed) = Ok "a=1;b=2".
Proof. reflexivity. Qed.

End ExpiryExamples.




(** At the very second of [now] the weekday written in the date decides
    first: the same date written with [Sun] is kept, with [Mon] it is
    removed. *)
Example same_second_weekday :
  filter_expired_cookies (lib := Ref.lib) Samples.new_year_2020
    (Samples.with_jar [("sid", PStr "abc; expires=Sun, 01-Jan-2020 00:00:00 GMT")])
  = (Samples.with_jar [("sid", PStr "abc; expires=Sun, 01-Jan-2020 00:00:00 GMT")],
     Ok tt) /\
  filter_expired_cookies (lib := Ref.lib) Samples.new_year_2020
    (Samples.with_jar [("sid", PStr "abc; expires=Mon, 01-Jan-2020 00:00:00 GMT")])
  = (Samples.with_jar [], Ok tt).
Proof. split; reflexivity. Qed.

(** ** Reading an [expires] directive *)

Section ExpiresDirective.

Context {lib : PyLib}.

(** The expiration read from an item whose first field containing [expires]
    is [kvp] and whose date string is [date]. *)
Lemma cookie_expires_date (name v kvp date : string) :
  Str.count "=" (name ++ "=" ++ v) <> 1 ->
  expires_kvp (name ++ "=" ++ v) = Some kvp ->
  index (Str.split "=" kvp) 1 = Ok date ->
  cookie_expires name (PStr v) = Some (parse_expires date).
Proof.
  intros Hcount Hkvp Hdate. unfold cookie_expires.
  apply Nat.eqb_neq in Hcount. rewrite Hcount, Hkvp, Hdate. reflexivity.
Qed.

Lemma parse_expires_four_digit (date : string) (exp : struct_time) :
  strptime date fmt_Y = Some exp -> parse_expires date = Ok exp.
Proof. unfold parse_expires. now intros ->. Qed.

Lemma parse_expires_two_digit (date : string) (exp : struct_time) :
  strptime date fmt_Y = None -> strptime date fmt_y = Some exp ->
  parse_expires date = Ok exp.
Proof. unfold parse_expires. now intros -> ->. Qed.

Lemma parse_expires_neither (date : string) :
  strptime date fmt_Y = None -> strptime date fmt_y = None ->
  parse_expires date = Raise ValueError.
Proof. unfold parse_expires. now intros -> ->. Qed.

End ExpiresDirective.

(** C5, amended: the date of the [expires] directive is parsed with the
    four-digit-year format first and, when that fails, with the
    two-digit-year format.  When both fail the [ValueError] of the second
    attempt is not handled: the expiration filter ends in an exception, the
    entry being still in the jar, and the exception is this [ValueError]
    when no entry walked before this one raises (an entry that raises
    earlier ends the filter first, with its own exception). *)
Theorem expires_formats_in_order {lib : PyLib} (W : Type) (now : struct_time)
    (st : state W) (jar : dict) (name v kvp date : string) :
  request_cookies st = PDict jar ->
  Dict.wf jar = true ->
  Dict.get jar name = Some (PStr v) ->
  Str.count "=" (name ++ "=" ++ v) <> 1 ->
  expires_kvp (name ++ "=" ++ v) = Some kvp ->
  index (Str.split "=" kvp) 1 = Ok date ->
  (forall exp, strptime date fmt_Y = Some exp ->
               cookie_expires name (PStr v) = Some (Ok exp)) /\
  (forall exp, strptime date fmt_Y = None -> strptime date fmt_y = Some exp ->
               cookie_expires name (PStr v) = Some (Ok exp)) /\
  (strptime date fmt_Y = None -> strptime date fmt_y = None ->
   cookie_expires name (PStr v) = Some (Raise ValueError) /\
   is_ok (snd (filter_expired_cookies now st)) = false /\
   (forall pre post,
       jar = pre ++ (name, PStr v) :: post ->
       (forall name' v' e, In (name', v') pre ->
                           cookie_expires name' v' <> Some (Raise e)) ->
       snd (filter_expired_cookies now st) = Raise ValueError) /\
   exists jar',
     request_cookies (fst (filter_expired_cookies now st)) = PDict jar' /\
     Dict.get jar' name = Some (PStr v)).
Proof.
  intros Hjar Hwf Hget Hcount Hkvp Hdate.
  pose proof (cookie_expires_date name v kvp date Hcount Hkvp Hdate) as Hce.
  split; [|split].
  - intros exp HY. now rewrite Hce, (parse_expires_four_digit date exp).
  - intros exp HY Hy. now rewrite Hce, (parse_expires_two_digit date exp).
  - intros HY Hy. rewrite (parse_expires_neither date HY Hy) in Hce.
    split; [assumption|]. split; [|split].
    + unfold filter_expired_cookies, iter_cookies_expires. rewrite Hjar.
      apply filter_loop_raises. exists name, (PStr v).
      split; [now apply DictFacts.get_in|].
      unfold raises. now rewrite Hce.
    + intros pre post Hsplit Hfirst.
      unfold filter_expired_cookies, iter_cookies_expires. rewrite Hjar.
      rewrite Hsplit at 1.
      apply (filter_loop_first_raise W now name (PStr v) post ValueError pre st jar
               Hjar).
      * now rewrite <- Hsplit.
      * intros k' v' Hin. rewrite <- Hsplit in Hin.
        now apply DictFacts.in_mem with (v := v').
      * intros k' v' Hin. unfold raises.
        destruct (cookie_expires k' v') as [[exp|e]|] eqn:E; auto.
        now destruct (Hfirst k' v' e Hin).
      * assumption.
    + destruct (filter_keeps W st jar now Hjar Hwf) as (jar' & Hst & Hkeep & _).
      exists jar'. rewrite Hst. split; [reflexivity|].
      apply Hkeep; [assumption|]. unfold expired. now rewrite Hce.
Qed.

Lemma expires_formats_in_order_witness :
  cookie_expires (lib := Ref.lib) "sid" (PStr "abc; expires=Wed, 01-Jan-20 00:00:00 GMT")
  = Some (Ok [2020; 1; 1; 0; 0; 0; 2; 1; -1]%Z).
Proof.
  assert (Hcount : Str.count "=" ("sid" ++ "=" ++ "abc; expires=Wed, 01-Jan-20 00:00:00 GMT")
                   <> 1) by (simpl; lia).
  apply (proj1 (proj2
    (expires_formats_in_order (lib := Ref.lib) sr_call
       Samples.new_year_2021
       (Samples.with_jar Samples.jar_legacy)
       Samples.jar_legacy "sid"
       "abc; expires=Wed, 01-Jan-20 00:00:00 GMT"
       "expires=Wed, 01-Jan-20 00:00:00 GMT"
       "Wed, 01-Jan-20 00:00:00 GMT"
       eq_refl eq_refl eq_refl Hcount eq_refl eq_refl)));
    reflexivity.
Defined.

(** C5 as stated fails: for the jar [{a: '1; expires=never'}] neither
    format parses the date, and the filter raises [ValueError] instead of
    keeping the entry silently. *)
Lemma unparseable_expires_raises :
  strptime (PyLib := Ref.lib) "never" fmt_Y = None /\
  strptime (PyLib := Ref.lib) "never" fmt_y = None /\
  filter_expired_cookies (lib := Ref.lib) Samples.new_year_2021
    (Samples.with_jar [("a", PStr "1; expires=never")])
  = (Samples.with_jar [("a", PStr "1; expires=never")], Raise ValueError).
Proof. repeat split. Qed.

(** An entry that raises earlier ends the filter with its own exception:
    here the [IndexError] of [a], not the [ValueError] of [b]. *)
Example earlier_entry_raises_first :
  filter_expired_cookies (lib := Ref.lib) Samples.new_year_2021
    (Samples.with_jar [("a", PStr "x=1; expires"); ("b", PStr "1; expires=never")])
  = (Samples.with_jar [("a", PStr "x=1; expires"); ("b", PStr "1; expires=never")],
     Raise IndexError).
Proof. reflexivity. Qed.

(** ** Entries that are not strings *)

Section NonString.

Implicit Types (jar : dict).

Lemma cookie_expires_non_string {lib : PyLib} (name : string) (v : pyval) :
  is_basestring v = false -> cookie_expires name v = None.
Proof. destruct v; simpl; auto; discriminate. Qed.

Lemma str_list_pop jar (name : string) (v : pyval) :
  Dict.wf jar = true ->
  Dict.get jar name = Some v ->
  is_basestring v = false ->
  str_list (Dict.pop jar name) = str_list jar.
Proof.
  induction jar as [|[k v0] jar IH]; simpl; [discriminate|].
  intros Hwf Hget Hns. apply andb_prop in Hwf as [Hk Hwf].
  fold (Dict.pop jar name).
  destruct (String.eqb k name) eqn:E; simpl.
  - apply String.eqb_eq in E. subst k. injection Hget as ->.
    apply negb_true_iff in Hk.
    rewrite (pop_absent jar name Hk).
    destruct v; try reflexivity; discriminate.
  - rewrite (IH Hwf Hget Hns). reflexivity.
Qed.

Lemma str_list_origin jar (s : string) :
  In s (str_list jar) ->
  exists k t, In (k, PStr t) jar /\ s = (k ++ "=" ++ t)%string.
Proof.
  induction jar as [|[k v] jar IH]; simpl; [tauto|].
  intros Hin.
  assert (Hrest : In s (str_list jar) ->
                  exists k0 t, ((k, v) = (k0, PStr t) \/ In (k0, PStr t) jar) /\
                               s = (k0 ++ "=" ++ t)%string).
  { intros H. destruct (IH H) as (k0 & t & Hin0 & ->). eauto. }
  destruct v; auto.
  destruct Hin as [<-|Hin]; eauto.
Qed.

End NonString.

(** C10: an entry whose value is not a string is still in the jar, with its
    value, after the expiration filter, whatever the outcome of the filter;
    the environment string is the one of the jar without the entry, each of
    its fragments coming from a string entry; and building the string
    changes no state. *)
Theorem non_string_entries_stay {lib : PyLib} (W : Type) (now : struct_time)
    (st : state W) (jar : dict) (name : string) (v : pyval) :
  request_cookies st = PDict jar ->
  Dict.wf jar = true ->
  Dict.get jar name = Some v ->
  is_basestring v = false ->
  (exists jar',
      request_cookies (fst (filter_expired_cookies now st)) = PDict jar' /\
      Dict.get jar' name = Some v) /\
  cookie_environ_string st
    = cookie_environ_string (set_request_cookies st (PDict (Dict.pop jar name))) /\
  (forall s, In s (str_list jar) ->
             exists k t, Dict.get jar k = Some (PStr t) /\ s = (k ++ "=" ++ t)%string).
Proof.
  intros Hjar Hwf Hget Hns. split; [|split].
  - destruct (filter_keeps W st jar now Hjar Hwf) as (jar' & Hst & Hkeep & _).
    exists jar'. rewrite Hst. split; [reflexivity|].
    apply Hkeep; [assumption|].
    unfold expired. now rewrite cookie_expires_non_string.
  - unfold cookie_environ_string. rewrite Hjar. simpl.
    now rewrite (str_list_pop jar name v).
  - intros s Hin. destruct (str_list_origin jar s Hin) as (k & t & Hk & ->).
    exists k, t. split; [|reflexivity]. now apply DictFacts.wf_in_get.
Qed.

Lemma non_string_entries_stay_witness :
  (exists jar',
      request_cookies
        (fst (filter_expired_cookies (lib := Ref.lib) Samples.new_year_2021
                (Samples.with_jar Samples.jar_mixed)))
      = PDict jar' /\
      Dict.get jar' "n" = Some (PInt 3)) /\
  cookie_environ_string (Samples.with_jar Samples.jar_mixed)
    = cookie_environ_string
        (set_request_cookies (Samples.with_jar Samples.jar_mixed)
           (PDict (Dict.pop Samples.jar_mixed "n"))) /\
  (forall s, In s (str_list Samples.jar_mixed) ->
             exists k t, Dict.get Samples.jar_mixed k = Some (PStr t) /\
                         s = (k ++ "=" ++ t)%string).
Proof.
  apply (non_string_entries_stay (lib := Ref.lib) sr_call
           Samples.new_year_2021
           (Samples.with_jar Samples.jar_mixed)
           Samples.jar_mixed "n" (PInt 3)); reflexivity.
Defined.

(** ** Decoding the aggregate cookie *)

(** C6, amended: decoding a malformed aggregate payload (not base58, or
    base58 of something that is not JSON) fails with [ValueError];
    [decode_zappa_cookie] does not handle it, so the error reaches its
    caller, and the jar is left as it was. *)
Theorem decode_error_reaches_caller {lib : PyLib} (W : Type) (st : state W)
    (encoded_zappa : string) :
  b58decode encoded_zappa = None \/
  (exists dz, b58decode encoded_zappa = Some dz /\ json_loads dz = None) ->
  snd (decode_zappa_cookie st encoded_zappa) = Raise ValueError /\
  request_cookies (fst (decode_zappa_cookie st encoded_zappa)) = request_cookies st.
Proof.
  unfold decode_zappa_cookie. intros [->|(dz & -> & ->)]; split; reflexivity.
Qed.

Lemma decode_error_reaches_caller_witness :
  snd (decode_zappa_cookie (lib := Ref.lib) Samples.st_ab "2NEpo7TZRRrLZSi2U")
    = Raise ValueError /\
  request_cookies
    (fst (decode_zappa_cookie (lib := Ref.lib) Samples.st_ab "2NEpo7TZRRrLZSi2U"))
    = request_cookies Samples.st_ab.
Proof.
  apply (decode_error_reaches_caller (lib := Ref.lib) sr_call Samples.st_ab
           "2NEpo7TZRRrLZSi2U").
  right. exists "Hello World!". split; reflexivity.
Defined.

(** C6 as stated fails: [0] is not a base58 digit; decoding the payload
    ['0'] raises [ValueError] to the caller and the jar [{a: '1', b: '2'}]
    is not emptied. *)
Lemma malformed_payload_raises :
  decode_zappa_cookie (lib := Ref.lib) Samples.st_ab "0"
    = (Samples.st_ab, Raise ValueError) /\
  request_cookies Samples.st_ab <> PDict [].
Proof. split; [reflexivity|discriminate]. Qed.

Example decode_packed_jar :
  request_cookies
    (fst (decode_zappa_cookie (lib := Ref.lib) Samples.st_empty "7vEqv9ieRF2uZe"))
    = PDict [("a", PStr "1")] /\
  snd (decode_zappa_cookie (lib := Ref.lib) Samples.st_empty "7vEqv9ieRF2uZe") = Ok tt.
Proof. split; reflexivity. Qed.

(** ** The request interceptor *)

Section Call.

Context {lib : PyLib}.
Variable W : Type.
Implicit Types (st : state W) (app : application W) (a : app_run W)
  (environ : dict) (sr : starter W).

Lemma run_app_redirect a : forall st,
  no_stage a -> redirect_content (fst (run_app a st)) = redirect_content st.
Proof.
  induction a as [response|e|status headers exc k IH|content k IH]; intros st Hns;
    simpl in *; try reflexivity; [|contradiction].
  destruct (encode_response st status headers exc) as [st' r] eqn:E.
  rewrite IH by apply Hns.
  change st' with (fst (st', r)). rewrite <- E.
  apply encode_response_redirect.
Qed.

Lemma call_returns st app environ sr st3 response :
  run_app (app (app_environ environ)) (at_application st environ sr)
    = (st3, Ok response) ->
  __call__ st app environ sr
    = (set_redirect_content st3 None, Ok (smash (redirect_content st3) response)).
Proof. unfold __call__, at_application. now intros ->. Qed.

Lemma call_raises st app environ sr st3 e :
  run_app (app (app_environ environ)) (at_application st environ sr)
    = (st3, Raise e) ->
  __call__ st app environ sr = (st3, Raise e).
Proof. unfold __call__, at_application. now intros ->. Qed.

Lemma smash_staged (c : string) (response : list string) :
  c <> EmptyString -> smash (Some c) response = map (fun _ => c) response.
Proof. destruct c; [congruence|reflexivity]. Qed.

Lemma smash_not_staged (content : option string) (response : list string) :
  truthy content = false -> smash content response = response.
Proof. unfold smash. destruct content; [now intros ->|reflexivity]. Qed.

End Call.


Module CallExamples.

Example aggregate_removed :
  app_environ (lib := Ref.lib) Samples.mixed_request
  = [("PATH_INFO", PStr "/"); ("HTTP_COOKIE", PDict [("lang", PStr "en")])].
Proof. reflexivity. Qed.

(** When the application raises, [__call__] is left before the slot is
    reset: the override stays staged. *)
Example override_survives_exception :
  __call__ (lib := Ref.lib) Samples.st_staged (fun _ => AppRaise (AppError "boom")) []
    Ref.recorder
  = (mkState None (PDict []) (Some Ref.recorder) (Some "R"), Raise (AppError "boom")).
Proof. reflexivity. Qed.

Example single_chunk_replaced :
  __call__ (lib := Ref.lib) Samples.st_staged (fun _ => AppReturn ["body"]) [] Ref.recorder
  = (mkState None (PDict []) (Some Ref.recorder) None, Ok ["R"]).
Proof. reflexivity. Qed.

End CallExamples.

(** What [__call__] does depends on the libraries through [parse_cookie]
    only: nothing is decoded and no date is parsed or compared. *)
Lemma call_uses_parse_cookie_only (lib1 lib2 : PyLib) (W : Type) (st : state W)
    (app : application W) (environ : dict) (sr : starter W) :
  parse_cookie (PyLib := lib1) environ = parse_cookie (PyLib := lib2) environ ->
  __call__ (lib := lib1) st app environ sr = __call__ (lib := lib2) st app environ sr.
Proof.
  intros H. unfold __call__, app_environ, parsed_cookies. now rewrite H.
Qed.

(** C2, as the code behaves on a request that carries a packed jar: the
    payload ['7vEqv9ieRF2uZe'] decodes to the jar [{a: '1'}], but [__call__]
    drops the aggregate cookie without decoding it; the application sees no
    cookie at all, [decoded_zappa] is still unset and the jar is empty. *)
Theorem call_does_not_decode :
  request_cookies
    (fst (decode_zappa_cookie (lib := Ref.lib) Samples.st_empty "7vEqv9ieRF2uZe"))
    = PDict [("a", PStr "1")] /\
  __call__ (lib := Ref.lib) Samples.st_empty Samples.cookie_names
    Samples.packed_request Ref.recorder
  = (mkState None (PDict []) (Some Ref.recorder) None, Ok []).
Proof. split; reflexivity. Qed.

(** C8: the environment the application is called with maps [HTTP_COOKIE]
    to the parsed cookies without the name [zappa], every other parsed
    cookie being kept; the jar of the instance is that mapping when the
    application starts. *)
Theorem aggregate_cookie_hidden {lib : PyLib} (W : Type) (st : state W)
    (app : application W) (environ : dict) (sr : starter W) :
  exists parsed,
    Dict.get (app_environ environ) "HTTP_COOKIE" = Some (PDict parsed) /\
    Dict.get parsed "zappa" = None /\
    (forall name, name <> "zappa" ->
                  Dict.get parsed name = Dict.get (parse_cookie environ) name) /\
    request_cookies (at_application st environ sr) = PDict parsed /\
    __call__ st app environ sr
      = __call__ st (fun _ => app (app_environ environ)) environ sr.
Proof.
  exists (parsed_cookies environ). unfold app_environ, parsed_cookies.
  repeat split.
  - apply DictFacts.get_set_eq.
  - apply DictFacts.get_pop_eq.
  - intros name Hne. apply DictFacts.get_pop_ne. congruence.
Qed.

(** C9, amended: when the application returns its response, a non-empty
    staged override replaces every chunk of the response (so it appears once
    for each chunk), an unset or empty override leaves the response
    unchanged, and in both cases the slot is [None] in the state returned; a
    following request on that state whose run does not stage an override
    gets its response unchanged. *)
Theorem override_replaces_chunks_and_is_cleared {lib : PyLib} (W : Type)
    (st st3 : state W) (app : application W) (environ : dict) (sr : starter W)
    (response : list string) :
  run_app (app (app_environ environ)) (at_application st environ sr)
    = (st3, Ok response) ->
  exists st4 body,
    __call__ st app environ sr = (st4, Ok body) /\
    redirect_content st4 = None /\
    (forall c, redirect_content st3 = Some c -> c <> EmptyString ->
               body = map (fun _ => c) response) /\
    (truthy (redirect_content st3) = false -> body = response) /\
    (forall (app2 : application W) (environ2 : dict) (sr2 : starter W)
            (st5 : state W) (response2 : list string),
        no_stage (app2 (app_environ environ2)) ->
        run_app (app2 (app_environ environ2)) (at_application st4 environ2 sr2)
          = (st5, Ok response2) ->
        snd (__call__ st4 app2 environ2 sr2) = Ok response2).
Proof.
  intros Hrun. exists (set_redirect_content st3 None), (smash (redirect_content st3) response).
  split; [now apply call_returns|]. split; [reflexivity|]. split; [|split].
  - intros c -> Hc. now apply smash_staged.
  - apply smash_not_staged.
  - intros app2 environ2 sr2 st5 response2 Hns Hrun2.
    rewrite (call_returns W _ app2 environ2 sr2 st5 response2 Hrun2). simpl.
    pose proof (run_app_redirect W _ (at_application (set_redirect_content st3 None)
                                      environ2 sr2) Hns) as Hslot.
    rewrite Hrun2 in Hslot. simpl in Hslot. now rewrite Hslot.
Qed.

Lemma override_replaces_chunks_and_is_cleared_witness :
  exists st4 body,
    __call__ (lib := Ref.lib) Samples.st_staged
      (fun _ => AppReturn ["a"; "b"; "c"]) [] Ref.recorder = (st4, Ok body) /\
    redirect_content st4 = None /\
    body = ["R"; "R"; "R"].
Proof.
  destruct (override_replaces_chunks_and_is_cleared (lib := Ref.lib) sr_call
              Samples.st_staged
              (mkState None (PDict []) (Some Ref.recorder) (Some "R"))
              (fun _ => AppReturn ["a"; "b"; "c"]) [] Ref.recorder ["a"; "b"; "c"]
              eq_refl)
    as (st4 & body & Hcall & Hslot & Hstaged & _).
  exists st4, body. split; [exact Hcall|]. split; [exact Hslot|].
  apply (Hstaged "R"); [reflexivity|discriminate].
Defined.

(** C9 as stated fails: with the override [R] staged, a response of two
    chunks goes out as two copies of [R], and a response without chunks goes
    out empty, the override being dropped and the slot cleared. *)
Lemma override_not_exactly_once :
  __call__ (lib := Ref.lib) Samples.st_staged
    (fun _ => AppReturn ["a"; "b"]) [] Ref.recorder
  = (mkState None (PDict []) (Some Ref.recorder) None, Ok ["R"; "R"]) /\
  __call__ (lib := Ref.lib) Samples.st_staged
    (fun _ => AppReturn []) [] Ref.recorder
  = (mkState None (PDict []) (Some Ref.recorder) None, Ok []).
Proof. split; reflexivity. Qed.

(** * Further properties of the middleware *)

(** ** More on [encode_response] *)

Section EncodeResponseMore.

Variable W : Type.
Implicit Types (st : state W) (jar : dict) (headers : list header).

Lemma in_filter_set_cookie headers (h : string) :
  In ("Set-Cookie", h) headers -> In ("Set-Cookie", h) (filter is_set_cookie headers).
Proof. intros Hin. apply filter_In. split; [assumption|reflexivity]. Qed.

(** A comprehension over directives one of which has no [=] raises
    [IndexError], wherever that directive stands. *)
Lemma mapM_cookie_dict_raise (hs : list header) :
  (exists h, In h hs /\ Str.count "=" (snd h) = 0) ->
  mapM cookie_dict hs = Raise IndexError.
Proof.
  induction hs as [|h hs IH]; intros (h0 & Hin & H0); [destruct Hin|].
  simpl. destruct (Str.count "=" (snd h)) as [|n] eqn:Ec.
  - now rewrite (cookie_dict_malformed h Ec).
  - destruct (cookie_dict_ok h) as (n0 & v0 & _ & _ & ->); [lia|]. simpl.
    destruct Hin as [->|Hin]; [congruence|].
    rewrite IH by eauto. reflexivity.
Qed.

Lemma mapM_app {A B : Type} (f : A -> result B) (l1 l2 : list A) (r1 r2 : list B) :
  mapM f l1 = Ok r1 -> mapM f l2 = Ok r2 -> mapM f (l1 ++ l2) = Ok (r1 ++ r2).
Proof.
  revert r1. induction l1 as [|a l1 IH]; simpl; intros r1.
  - now intros [= <-].
  - destruct (f a) as [b|]; simpl; [|discriminate].
    destruct (mapM f l1) as [bs|] eqn:E; simpl; [|discriminate].
    intros [= <-] H2. now rewrite (IH bs eq_refl H2).
Qed.

Lemma filter_none headers :
  (forall h, In h headers -> fst h <> "Set-Cookie") ->
  filter is_set_cookie headers = [] /\ new_headers headers = headers.
Proof.
  unfold new_headers.
  induction headers as [|[a b] hs IH]; intros Hno; [split; reflexivity|].
  assert (E : is_set_cookie (a, b) = false).
  { unfold is_set_cookie. apply String.eqb_neq. apply (Hno (a, b)). now left. }
  destruct IH as [IH1 IH2]; [intros; apply Hno; now right|].
  simpl. rewrite E. simpl. now rewrite IH1, IH2.
Qed.

Lemma split1_first (c : ascii) (n v : string) :
  Str.count c n = 0 -> Str.split1 c (n ++ String c v) = [n; v].
Proof.
  induction n as [|x n IH]; simpl.
  - intros _. unfold Str.eq_char. now rewrite Ascii.eqb_refl.
  - destruct (Str.eq_char x c); [discriminate|].
    intros H. now rewrite (IH H).
Qed.

Lemma cookie_dicts_all_ok headers :
  (forall h, In ("Set-Cookie", h) headers -> 0 < Str.count "=" h) ->
  exists cds, cookie_dicts headers = Ok cds.
Proof.
  intros Hwell. apply mapM_cookie_dict_ok.
  intros h Hin. apply Hwell. now apply filter_set_cookie_in.
Qed.

End EncodeResponseMore.

(** X1: when one [Set-Cookie] directive of the response has no [=],
    [encode_response] raises [IndexError] and leaves the instance as it
    was: no directive is merged, not even a well-formed one that comes
    first, and the response starter is not called. *)
Theorem malformed_directive_aborts_merge (W : Type) (st : state W)
    (status : string) (headers : list header) (exc : exc_info) (h : string) :
  In ("Set-Cookie", h) headers ->
  Str.count "=" h = 0 ->
  encode_response st status headers exc = (st, Raise IndexError).
Proof.
  intros Hin H0. unfold encode_response, cookie_dicts.
  rewrite mapM_cookie_dict_raise; [reflexivity|].
  exists ("Set-Cookie", h). split; [now apply in_filter_set_cookie|assumption].
Qed.

Lemma malformed_directive_aborts_merge_witness :
  encode_response Samples.st_ab "200 OK"
    [("Set-Cookie", "c=3"); ("Set-Cookie", "secure")] None
  = (Samples.st_ab, Raise IndexError).
Proof.
  apply (malformed_directive_aborts_merge sr_call Samples.st_ab "200 OK"
           [("Set-Cookie", "c=3"); ("Set-Cookie", "secure")] None "secure").
  - right. left. reflexivity.
  - reflexivity.
Defined.

(** X2: a response none of whose headers is named [Set-Cookie] (the
    comparison is exact: [set-cookie] is such a name) goes through
    untouched: the response starter is called with the same status, the same
    headers and the same [exc_info], its result is returned, and the
    instance is unchanged. *)
Theorem response_without_cookies_untouched (W : Type) (st : state W)
    (status : string) (headers : list header) (exc : exc_info) (jar : dict)
    (sr : starter W) :
  request_cookies st = PDict jar ->
  start_response st = Some sr ->
  (forall h, In h headers -> fst h <> "Set-Cookie") ->
  encode_response st status headers exc = (st, sr status headers exc).
Proof.
  intros Hjar Hsr Hno. unfold encode_response, cookie_dicts.
  destruct (filter_none headers Hno) as [-> ->]. simpl. rewrite Hjar.
  unfold update_all. simpl.
  rewrite (set_request_cookies_same W st (PDict jar) Hjar).
  now rewrite Hsr.
Qed.

Lemma response_without_cookies_untouched_witness :
  encode_response Samples.st_ab "404 NOT FOUND"
    [("Content-Type", "text/plain"); ("set-cookie", "a=9")] None
  = (Samples.st_ab,
     Ref.recorder "404 NOT FOUND"
       [("Content-Type", "text/plain"); ("set-cookie", "a=9")] None).
Proof.
  apply (response_without_cookies_untouched sr_call Samples.st_ab "404 NOT FOUND"
           [("Content-Type", "text/plain"); ("set-cookie", "a=9")] None
           [("a", PStr "1"); ("b", PStr "2")] Ref.recorder).
  - reflexivity.
  - reflexivity.
  - intros h [<-|[<-|[]]]; discriminate.
Defined.

(** X3: a directive is cut at its first [=] only: for [name=rest] with no
    [=] in [name], the entry merged has the key [name] stripped of
    surrounding blanks and, as value, [rest] as it is, with any attributes
    and further [=] it contains. *)
Theorem directive_cut_at_first_equals (W : Type) (st : state W)
    (status : string) (exc : exc_info) (jar : dict) (name rest : string) :
  request_cookies st = PDict jar ->
  Str.count "=" name = 0 ->
  request_cookies
    (fst (encode_response st status [("Set-Cookie", (name ++ "=" ++ rest)%string)] exc))
  = PDict (Dict.set jar (Str.strip name) (PStr rest)).
Proof.
  intros Hjar Hname.
  rewrite (encode_response_jar W st status _ exc jar Hjar).
  unfold cookie_dicts, cookie_dict, directive_name, directive_value. simpl.
  change (name ++ "=" ++ rest)%string with (name ++ String "=" rest)%string.
  now rewrite (split1_first "=" name rest Hname).
Qed.

Lemma directive_cut_at_first_equals_witness :
  request_cookies
    (fst (encode_response Samples.st_ab "200 OK"
            [("Set-Cookie", (" sid " ++ "=" ++ "x=y; Path=/; Max-Age=60")%string)] None))
  = PDict (Dict.set [("a", PStr "1"); ("b", PStr "2")] (Str.strip " sid ")
             (PStr "x=y; Path=/; Max-Age=60")).
Proof.
  apply (directive_cut_at_first_equals sr_call Samples.st_ab "200 OK" None
           [("a", PStr "1"); ("b", PStr "2")] " sid " "x=y; Path=/; Max-Age=60");
    reflexivity.
Defined.

(** X4: two calls of [encode_response] in a row merge like one call with
    the two header lists one after the other, when every [Set-Cookie]
    directive has an [=]: the jar is the same. *)
Theorem encode_response_twice (W : Type) (st : state W)
    (status1 status2 status : string) (headers1 headers2 : list header)
    (exc1 exc2 exc : exc_info) (jar : dict) :
  request_cookies st = PDict jar ->
  (forall h, In ("Set-Cookie", h) (headers1 ++ headers2) -> 0 < Str.count "=" h) ->
  request_cookies
    (fst (encode_response (fst (encode_response st status1 headers1 exc1))
            status2 headers2 exc2))
  = request_cookies (fst (encode_response st status (headers1 ++ headers2) exc)).
Proof.
  intros Hjar Hwell.
  destruct (cookie_dicts_all_ok headers1) as (c1 & E1).
  { intros h Hin. apply Hwell. apply in_or_app. now left. }
  destruct (cookie_dicts_all_ok headers2) as (c2 & E2).
  { intros h Hin. apply Hwell. apply in_or_app. now right. }
  pose proof (encode_response_jar W st status1 headers1 exc1 jar Hjar) as H1.
  rewrite E1 in H1.
  rewrite (encode_response_jar W _ status2 headers2 exc2 _ H1), E2.
  rewrite (encode_response_jar W st status _ exc jar Hjar).
  unfold cookie_dicts in *. rewrite filter_app.
  rewrite (mapM_app cookie_dict _ _ c1 c2 E1 E2).
  now rewrite update_all_app.
Qed.

Lemma encode_response_twice_witness :
  request_cookies
    (fst (encode_response
            (fst (encode_response Samples.st_ab "200 OK" [("Set-Cookie", "a=9")] None))
            "500 ERROR" [("Set-Cookie", "c=3"); ("Set-Cookie", "a=7")] None))
  = request_cookies
      (fst (encode_response Samples.st_ab "200 OK"
              ([("Set-Cookie", "a=9")] ++ [("Set-Cookie", "c=3"); ("Set-Cookie", "a=7")])
              None)).
Proof.
  apply (encode_response_twice sr_call Samples.st_ab "200 OK" "500 ERROR" "200 OK"
           [("Set-Cookie", "a=9")] [("Set-Cookie", "c=3"); ("Set-Cookie", "a=7")]
           None None None [("a", PStr "1"); ("b", PStr "2")]).
  - reflexivity.
  - intros h [[= <-]|[[= <-]|[[= <-]|[]]]]; simpl; lia.
Defined.

(** ** More on the expiration filter *)

Section FilterMore.

Context {lib : PyLib}.
Variable W : Type.
Variable now : struct_time.
Implicit Types (st : state W) (jar cur items : dict).

Lemma filter_filter {A : Type} (f g : A -> bool) (l : list A) :
  filter f (filter g l) = filter (fun x => g x && f x) l.
Proof.
  induction l as [|a l IH]; simpl; [reflexivity|].
  destruct (g a); simpl; [destruct (f a)|]; now rewrite IH.
Qed.

Lemma filter_all {A : Type} (f : A -> bool) (l : list A) :
  (forall x, In x l -> f x = true) -> filter f l = l.
Proof.
  induction l as [|a l IH]; simpl; intros H; [reflexivity|].
  rewrite (H a) by now left. rewrite IH; [reflexivity|]. intros; apply H; now right.
Qed.

Lemma mem_filter (f : string * pyval -> bool) cur (k : string) :
  Dict.mem (filter f cur) k = true -> Dict.mem cur k = true.
Proof.
  unfold Dict.mem. induction cur as [|[k' v'] cur IH]; simpl; [auto|].
  destruct (f (k', v')); simpl; destruct (String.eqb k' k); auto.
Qed.

Lemma wf_filter (f : string * pyval -> bool) cur :
  Dict.wf cur = true -> Dict.wf (filter f cur) = true.
Proof.
  induction cur as [|[k v] cur IH]; simpl; [reflexivity|].
  intros H. apply andb_prop in H as [Hk Hwf].
  destruct (f (k, v)); simpl; [|auto].
  rewrite IH by assumption. rewrite andb_true_r.
  apply negb_true_iff. apply negb_true_iff in Hk.
  destruct (Dict.mem (filter f cur) k) eqn:E; [|reflexivity].
  apply mem_filter in E. congruence.
Qed.

(** The loop, when no item raises, in closed form: what is left of the jar
    are its entries whose key is not the one of an expired item, in their
    order. *)
Lemma filter_loop_closed items : forall st cur,
  request_cookies st = PDict cur ->
  Dict.wf items = true ->
  (forall k v, In (k, v) items -> Dict.mem cur k = true) ->
  (forall k v, In (k, v) items -> raises k v = false) ->
  filter_loop now (iter_items items) st
  = (set_request_cookies st (PDict (filter (fun kv => negb (hit now items kv)) cur)), Ok tt).
Proof.
  induction items as [|[k v] items IH]; intros st cur Hjar Hwf Hmem Hnr.
  - simpl. rewrite filter_all by reflexivity.
    now rewrite (set_request_cookies_same W st (PDict cur) Hjar).
  - simpl in Hwf. apply andb_prop in Hwf as [Hk Hwf].
    apply negb_true_iff in Hk.
    assert (Hrest : forall k' v', In (k', v') items -> k' <> k).
    { intros k' v' Hin ->. apply DictFacts.in_mem in Hin. congruence. }
    assert (Hnr' : forall k' v', In (k', v') items -> raises k' v' = false).
    { intros k' v' Hin. apply Hnr. now right. }
    assert (Hmem' : forall k' v', In (k', v') items -> Dict.mem cur k' = true).
    { intros k' v' Hin. apply (Hmem k' v'). now right. }
    pose proof (Hnr k v (or_introl eq_refl)) as Hr.
    assert (Hstep : expired now k v = false ->
                    filter (fun kv => negb (hit now ((k, v) :: items) kv)) cur
                    = filter (fun kv => negb (hit now items kv)) cur).
    { intros He. apply filter_ext. intros kv. unfold hit. simpl.
      now rewrite He, andb_false_r. }
    unfold raises in Hr. unfold expired in Hstep. simpl iter_items.
    destruct (cookie_expires k v) as [[exp|e]|] eqn:Ece; [|discriminate|].
    + simpl filter_loop. destruct (struct_time_lt exp now) eqn:Hlt.
      * unfold del_request_cookie. rewrite Hjar. unfold Dict.delitem.
        rewrite (Hmem k v (or_introl eq_refl)).
        rewrite (IH (set_request_cookies st (PDict (Dict.pop cur k))) (Dict.pop cur k)
                    eq_refl Hwf); [|
          intros k' v' Hin; unfold Dict.mem;
          rewrite DictFacts.get_pop_ne by (intros ->; now apply (Hrest k' v'));
          now apply (Hmem' k' v') | assumption].
        change (set_request_cookies (set_request_cookies st (PDict (Dict.pop cur k))))
          with (set_request_cookies st).
        do 3 f_equal. unfold Dict.pop. rewrite filter_filter.
        apply filter_ext. intros kv. unfold hit. simpl.
        unfold expired. rewrite Ece, Hlt, andb_true_r.
        now rewrite negb_orb, (String.eqb_sym k (fst kv)).
      * rewrite Hstep by reflexivity. now apply IH.
    + rewrite Hstep by reflexivity. now apply IH.
Qed.

(** In a dict, the expired items found under the key of an entry are the
    entry itself. *)
Lemma hit_self jar (kv : string * pyval) :
  Dict.wf jar = true -> In kv jar -> hit now jar kv = expired now (fst kv) (snd kv).
Proof.
  intros Hwf Hin. destruct kv as [k v]. unfold hit. simpl.
  destruct (expired now k v) eqn:He.
  - apply existsb_exists. exists (k, v). simpl.
    now rewrite String.eqb_refl, He.
  - destruct (existsb _ jar) eqn:Hex; [|reflexivity].
    apply existsb_exists in Hex as ([k' v'] & Hin' & Hb). simpl in Hb.
    apply andb_prop in Hb as [Hk He']. apply String.eqb_eq in Hk. subst k'.
    apply (DictFacts.wf_in_get _ _ _ Hwf) in Hin.
    apply (DictFacts.wf_in_get _ _ _ Hwf) in Hin'. congruence.
Qed.

(** The filter in closed form. *)
Lemma filter_closed_form st jar :
  request_cookies st = PDict jar ->
  Dict.wf jar = true ->
  (forall name v, In (name, v) jar -> raises name v = false) ->
  filter_expired_cookies now st
  = (set_request_cookies st (PDict (filter (fresh now) jar)), Ok tt).
Proof.
  intros Hjar Hwf Hnr. unfold filter_expired_cookies, iter_cookies_expires.
  rewrite Hjar.
  rewrite (filter_loop_closed jar st jar Hjar Hwf); [|
    intros k v Hin; now apply DictFacts.in_mem with (v := v) | assumption].
  do 3 f_equal. apply filter_ext_in. intros kv Hin.
  unfold fresh. now rewrite hit_self.
Qed.

(** The only exceptions raised when the expiration of an item is read. *)
Lemma cookie_expires_errors (name : string) (value : pyval) (e : exn) :
  cookie_expires name value = Some (Raise e) -> e = IndexError \/ e = ValueError.
Proof.
  unfold cookie_expires. destruct value; try discriminate.
  destruct (Nat.eqb _ 1); [discriminate|].
  destruct (expires_kvp _) as [kvp|]; [|discriminate].
  unfold index. destruct (nth_error _ 1) as [date|]; simpl.
  - unfold parse_expires.
    destruct (strptime date fmt_Y); [discriminate|].
    destruct (strptime date fmt_y); [discriminate|].
    intros [= <-]. now right.
  - intros [= <-]. now left.
Qed.

Lemma filter_loop_errors items : forall st cur e,
  request_cookies st = PDict cur ->
  Dict.wf items = true ->
  (forall k v, In (k, v) items -> Dict.mem cur k = true) ->
  snd (filter_loop now (iter_items items) st) = Raise e ->
  e = IndexError \/ e = ValueError.
Proof.
  induction items as [|[k v] items IH]; intros st cur e Hjar Hwf Hmem;
    [discriminate|].
  simpl in Hwf. apply andb_prop in Hwf as [Hk Hwf].
  apply negb_true_iff in Hk.
  assert (Hrest : forall k' v', In (k', v') items -> k' <> k).
  { intros k' v' Hin ->. apply DictFacts.in_mem in Hin. congruence. }
  assert (Hmem' : forall k' v', In (k', v') items -> Dict.mem cur k' = true).
  { intros k' v' Hin. apply (Hmem k' v'). now right. }
  simpl iter_items.
  destruct (cookie_expires k v) as [[exp|e0]|] eqn:Ece.
  - simpl filter_loop. destruct (struct_time_lt exp now).
    + unfold del_request_cookie. rewrite Hjar. unfold Dict.delitem.
      rewrite (Hmem k v (or_introl eq_refl)).
      apply (IH _ (Dict.pop cur k)); [reflexivity|assumption|].
      intros k' v' Hin. unfold Dict.mem.
      rewrite DictFacts.get_pop_ne by (intros ->; now apply (Hrest k' v')).
      now apply (Hmem' k' v').
    + now apply (IH st cur).
  - simpl. intros [= <-]. now apply (cookie_expires_errors k v).
  - now apply (IH st cur).
Qed.

Lemma count_app (c : ascii) (a b : string) :
  Str.count c (a ++ b) = Str.count c a + Str.count c b.
Proof. induction a as [|x a IH]; simpl; [reflexivity|]. rewrite IH. lia. Qed.


Lemma str_list_in jar (s : string) :
  In s (str_list jar) <->
  exists k t, In (k, PStr t) jar /\ s = (k ++ "=" ++ t)%string.
Proof.
  split; [apply str_list_origin|].
  intros (k & t & Hin & ->).
  induction jar as [|[k' v'] jar IH]; [destruct Hin|].
  destruct Hin as [[= -> ->]|Hin]; simpl.
  - now left.
  - destruct v'; auto. right. auto.
Qed.

End FilterMore.

(** X5: for a jar with distinct keys in which reading no entry's
    expiration raises, the expiration filter completes, changes nothing but
    the jar, and leaves in the jar exactly the entries that are not expired,
    in the order they had. *)
Theorem filter_keeps_fresh_entries_in_order {lib : PyLib} (W : Type)
    (now : struct_time) (st : state W) (jar : dict) :
  request_cookies st = PDict jar ->
  Dict.wf jar = true ->
  (forall name v, In (name, v) jar -> raises name v = false) ->
  filter_expired_cookies now st
  = (set_request_cookies st
       (PDict (filter (fun kv => negb (expired now (fst kv) (snd kv))) jar)),
     Ok tt).
Proof. intros Hjar Hwf Hnr. now apply filter_closed_form. Qed.

Lemma filter_keeps_fresh_entries_in_order_witness :
  filter_expired_cookies (lib := Ref.lib) Samples.new_year_2021
    (Samples.with_jar Samples.jar_session)
  = (set_request_cookies (Samples.with_jar Samples.jar_session)
       (PDict (filter (fun kv => negb (expired (lib := Ref.lib) Samples.new_year_2021
                                         (fst kv) (snd kv)))
                      Samples.jar_session)),
     Ok tt).
Proof.
  apply (filter_keeps_fresh_entries_in_order (lib := Ref.lib) sr_call
           Samples.new_year_2021 (Samples.with_jar Samples.jar_session)
           Samples.jar_session).
  - reflexivity.
  - reflexivity.
  - intros name v [[= <- <-]|[[= <- <-]|[]]]; reflexivity.
Defined.

(** X6: pruning is idempotent: on a jar with distinct keys in which no
    entry raises, running the expiration filter again with the same [now]
    completes and changes nothing. *)
Theorem filter_expired_cookies_idempotent {lib : PyLib} (W : Type)
    (now : struct_time) (st : state W) (jar : dict) :
  request_cookies st = PDict jar ->
  Dict.wf jar = true ->
  (forall name v, In (name, v) jar -> raises name v = false) ->
  filter_expired_cookies now (fst (filter_expired_cookies now st))
  = (fst (filter_expired_cookies now st), Ok tt).
Proof.
  intros Hjar Hwf Hnr.
  rewrite (filter_closed_form W now st jar Hjar Hwf Hnr). simpl fst.
  rewrite (filter_closed_form W now
             (set_request_cookies st (PDict (filter (fresh now) jar)))
             (filter (fresh now) jar) eq_refl).
  - rewrite filter_filter.
    rewrite (filter_ext (fun x => fresh now x && fresh now x) (fresh now))
      by (intros kv; apply andb_diag).
    reflexivity.
  - now apply wf_filter.
  - intros name v Hin. apply filter_In in Hin as [Hin _]. now apply Hnr.
Qed.

Lemma filter_expired_cookies_idempotent_witness :
  filter_expired_cookies (lib := Ref.lib) Samples.new_year_2021
    (fst (filter_expired_cookies (lib := Ref.lib) Samples.new_year_2021
            (Samples.with_jar Samples.jar_session)))
  = (fst (filter_expired_cookies (lib := Ref.lib) Samples.new_year_2021
            (Samples.with_jar Samples.jar_session)), Ok tt).
Proof.
  apply (filter_expired_cookies_idempotent (lib := Ref.lib) sr_call
           Samples.new_year_2021 (Samples.with_jar Samples.jar_session)
           Samples.jar_session).
  - reflexivity.
  - reflexivity.
  - intros name v [[= <- <-]|[[= <- <-]|[]]]; reflexivity.
Defined.

(** X7: on a jar with distinct keys the expiration filter either completes
    or raises [IndexError] or [ValueError], the exceptions of reading a
    date; deleting an entry never fails with [KeyError]. *)
Theorem filter_raises_date_errors_only {lib : PyLib} (W : Type)
    (now : struct_time) (st : state W) (jar : dict) :
  request_cookies st = PDict jar ->
  Dict.wf jar = true ->
  snd (filter_expired_cookies now st) = Ok tt \/
  snd (filter_expired_cookies now st) = Raise IndexError \/
  snd (filter_expired_cookies now st) = Raise ValueError.
Proof.
  intros Hjar Hwf.
  destruct (snd (filter_expired_cookies now st)) as [[]|e] eqn:E; [now left|right].
  revert E. unfold filter_expired_cookies, iter_cookies_expires. rewrite Hjar.
  intros E.
  destruct (filter_loop_errors W now jar st jar e Hjar Hwf) as [->| ->]; auto.
  intros k v Hin. now apply DictFacts.in_mem with (v := v).
Qed.

Lemma filter_raises_date_errors_only_witness :
  snd (filter_expired_cookies (lib := Ref.lib) Samples.new_year_2021
         (Samples.with_jar Samples.jar_unparseable)) = Ok tt \/
  snd (filter_expired_cookies (lib := Ref.lib) Samples.new_year_2021
         (Samples.with_jar Samples.jar_unparseable)) = Raise IndexError \/
  snd (filter_expired_cookies (lib := Ref.lib) Samples.new_year_2021
         (Samples.with_jar Samples.jar_unparseable)) = Raise ValueError.
Proof.
  apply (filter_raises_date_errors_only (lib := Ref.lib) sr_call
           Samples.new_year_2021 (Samples.with_jar Samples.jar_unparseable)
           Samples.jar_unparseable); reflexivity.
Defined.

(** X8: an entry whose name and value hold no [=] (a plain value without
    attributes) has no expiration: the filter neither parses nor removes
    it, whatever words the value contains. *)
Theorem plain_value_never_expires {lib : PyLib} (W : Type) (now : struct_time)
    (st : state W) (jar : dict) (name v : string) :
  request_cookies st = PDict jar ->
  Dict.wf jar = true ->
  Dict.get jar name = Some (PStr v) ->
  Str.count "=" name = 0 ->
  Str.count "=" v = 0 ->
  cookie_expires name (PStr v) = None /\
  exists jar',
    request_cookies (fst (filter_expired_cookies now st)) = PDict jar' /\
    Dict.get jar' name = Some (PStr v).
Proof.
  intros Hjar Hwf Hget Hn Hv.
  assert (Hce : cookie_expires name (PStr v) = None).
  { unfold cookie_expires.
    change (name ++ "=" ++ v)%string with (name ++ String "=" v)%string.
    rewrite count_app. simpl. rewrite Hn, Hv. reflexivity. }
  split; [assumption|].
  destruct (filter_keeps W st jar now Hjar Hwf) as (jar' & Hst & Hkeep & _).
  exists jar'. rewrite Hst. split; [reflexivity|].
  apply Hkeep; [assumption|]. unfold expired. now rewrite Hce.
Qed.

Lemma plain_value_never_expires_witness :
  cookie_expires (lib := Ref.lib) "note" (PStr "expires soon; really") = None /\
  exists jar',
    request_cookies
      (fst (filter_expired_cookies (lib := Ref.lib) Samples.new_year_2021
              (Samples.with_jar [("note", PStr "expires soon; really")])))
    = PDict jar' /\
    Dict.get jar' "note" = Some (PStr "expires soon; really").
Proof.
  apply (plain_value_never_expires (lib := Ref.lib) sr_call Samples.new_year_2021
           (Samples.with_jar [("note", PStr "expires soon; really")])
           [("note", PStr "expires soon; really")] "note" "expires soon; really");
    reflexivity.
Defined.



(** X10: after an expiration filter that completed, the fragments joined
    by [cookie_environ_string] are the [name=value] of the entries of the
    jar that are strings and not expired, and nothing else. *)
Theorem environ_string_after_filter {lib : PyLib} (W : Type) (now : struct_time)
    (st : state W) (jar : dict) :
  request_cookies st = PDict jar ->
  Dict.wf jar = true ->
  (forall name v, In (name, v) jar -> raises name v = false) ->
  exists fragments,
    cookie_environ_string (fst (filter_expired_cookies now st))
      = Ok (Str.join ";" fragments) /\
    forall s,
      In s fragments <->
      exists k t, Dict.get jar k = Some (PStr t) /\
                  expired now k (PStr t) = false /\
                  s = (k ++ "=" ++ t)%string.
Proof.
  intros Hjar Hwf Hnr.
  rewrite (filter_closed_form W now st jar Hjar Hwf Hnr). simpl fst.
  exists (str_list (filter (fresh now) jar)). split; [reflexivity|].
  intros s. rewrite str_list_in. split.
  - intros (k & t & Hin & ->). apply filter_In in Hin as [Hin Hf].
    exists k, t. split; [now apply DictFacts.wf_in_get|].
    split; [|reflexivity]. unfold fresh in Hf. simpl in Hf.
    now apply negb_true_iff.
  - intros (k & t & Hget & He & ->). exists k, t. split; [|reflexivity].
    apply filter_In. split; [now apply DictFacts.get_in|].
    unfold fresh. simpl. now rewrite He.
Qed.

Lemma environ_string_after_filter_witness :
  exists fragments,
    cookie_environ_string
      (fst (filter_expired_cookies (lib := Ref.lib) Samples.new_year_2021
              (Samples.with_jar Samples.jar_session)))
      = Ok (Str.join ";" fragments) /\
    forall s,
      In s fragments <->
      exists k t, Dict.get Samples.jar_session k = Some (PStr t) /\
                  expired (lib := Ref.lib) Samples.new_year_2021 k (PStr t) = false /\
                  s = (k ++ "=" ++ t)%string.
Proof.
  apply (environ_string_after_filter (lib := Ref.lib) sr_call Samples.new_year_2021
           (Samples.with_jar Samples.jar_session) Samples.jar_session).
  - reflexivity.
  - reflexivity.
  - intros name v [[= <- <-]|[[= <- <-]|[]]]; reflexivity.
Defined.

(** ** More on [decode_zappa_cookie] *)

(** X11: [decode_zappa_cookie] does not check what the payload holds: a
    payload that decodes to JSON other than an object (a list, a string, a
    number, [null]) is accepted and becomes [request_cookies]; from then on
    the expiration filter, [cookie_environ_string] and [encode_response]
    raise [AttributeError]. *)
Theorem non_object_payload_is_accepted {lib : PyLib} (W : Type)
    (now : struct_time) (st : state W) (encoded_zappa dz : string) (v : pyval) :
  b58decode encoded_zappa = Some dz ->
  json_loads dz = Some v ->
  (forall d, v <> PDict d) ->
  exists st1,
    decode_zappa_cookie st encoded_zappa = (st1, Ok tt) /\
    request_cookies st1 = v /\
    filter_expired_cookies now st1 = (st1, Raise AttributeError) /\
    cookie_environ_string st1 = Raise AttributeError /\
    forall status headers exc,
      (forall h, In ("Set-Cookie", h) headers -> 0 < Str.count "=" h) ->
      encode_response st1 status headers exc = (st1, Raise AttributeError).
Proof.
  intros Hb Hj Hv. unfold decode_zappa_cookie. rewrite Hb, Hj.
  eexists. split; [reflexivity|]. split; [reflexivity|].
  unfold filter_expired_cookies, iter_cookies_expires, cookie_environ_string,
    encode_response. simpl.
  destruct v; try (now destruct (Hv d));
    (split; [reflexivity|]; split; [reflexivity|];
     intros status headers exc Hwell;
     destruct (cookie_dicts_all_ok headers Hwell) as (cds & ->); reflexivity).
Qed.

Lemma non_object_payload_is_accepted_witness :
  exists st1,
    decode_zappa_cookie (lib := Ref.lib) Samples.st_ab "nQqaWhgG" = (st1, Ok tt) /\
    request_cookies st1 = PList [PInt 1; PInt 2] /\
    filter_expired_cookies (lib := Ref.lib) Samples.new_year_2021 st1
      = (st1, Raise AttributeError) /\
    cookie_environ_string st1 = Raise AttributeError /\
    forall status headers exc,
      (forall h, In ("Set-Cookie", h) headers -> 0 < Str.count "=" h) ->
      encode_response st1 status headers exc = (st1, Raise AttributeError).
Proof.
  apply (non_object_payload_is_accepted (lib := Ref.lib) sr_call
           Samples.new_year_2021 Samples.st_ab "nQqaWhgG" "[1, 2]"
           (PList [PInt 1; PInt 2])).
  - reflexivity.
  - reflexivity.
  - discriminate.
Defined.

(** ** More on [__call__] *)

Section CallMore.

Context {lib : PyLib}.
Variable W : Type.
Implicit Types (st : state W) (app : application W) (a : app_run W)
  (environ : dict) (sr : starter W).

(** [encode_response] writes the jar only. *)
Lemma encode_response_frame st (status : string) (headers : list header)
    (exc : exc_info) :
  decoded_zappa (fst (encode_response st status headers exc)) = decoded_zappa st /\
  start_response (fst (encode_response st status headers exc)) = start_response st.
Proof.
  unfold encode_response. destruct st as [dz rc sr0 rd]. simpl.
  destruct (cookie_dicts headers); simpl; [|split; reflexivity].
  destruct rc; simpl; try (split; reflexivity).
  destruct sr0; simpl; split; reflexivity.
Qed.

Lemma run_app_frame a : forall st,
  decoded_zappa (fst (run_app a st)) = decoded_zappa st /\
  start_response (fst (run_app a st)) = start_response st.
Proof.
  induction a as [response|e|status headers exc k IH|content k IH]; intros st;
    simpl; try (split; reflexivity).
  - destruct (encode_response st status headers exc) as [st' r] eqn:E.
    destruct (IH r st') as [H1 H2]. rewrite H1, H2.
    change st' with (fst (st', r)). rewrite <- E.
    apply encode_response_frame.
  - destruct (IH (set_redirect_content st content)) as [H1 H2].
    now rewrite H1, H2.
Qed.

Lemma call_state st app environ sr :
  fst (__call__ st app environ sr)
  = match snd (run_app (app (app_environ environ)) (at_application st environ sr)) with
    | Ok _ => set_redirect_content
                (fst (run_app (app (app_environ environ))
                        (at_application st environ sr))) None
    | Raise _ => fst (run_app (app (app_environ environ))
                        (at_application st environ sr))
    end.
Proof.
  unfold __call__, at_application.
  destruct (run_app _ _) as [st3 [response|e]]; reflexivity.
Qed.

End CallMore.

(** X12: a request starts from the cookies of its own [Cookie] header:
    the jar and the response starter left on the instance by an earlier
    request have no influence on what [__call__] does and returns. *)
Theorem call_forgets_previous_jar {lib : PyLib} (W : Type) (st : state W)
    (app : application W) (environ : dict) (sr : starter W)
    (jar0 : pyval) (sr0 : option (starter W)) :
  __call__ (set_start_response (set_request_cookies st jar0) sr0) app environ sr
  = __call__ st app environ sr.
Proof. reflexivity. Qed.

(** X13: when the application raises and the hook stages nothing during
    its run, [__call__] lets the exception through and the override slot
    keeps what it held: an override staged before the failed request
    replaces the chunks of the response of the next request. *)
Theorem failed_request_keeps_override {lib : PyLib} (W : Type) (st : state W)
    (app : application W) (environ : dict) (sr : starter W) (e : exn) :
  no_stage (app (app_environ environ)) ->
  snd (__call__ st app environ sr) = Raise e ->
  redirect_content (fst (__call__ st app environ sr)) = redirect_content st /\
  forall (c : string) (app2 : application W) (environ2 : dict) (sr2 : starter W)
         (st5 : state W) (response2 : list string),
    redirect_content st = Some c ->
    c <> EmptyString ->
    no_stage (app2 (app_environ environ2)) ->
    run_app (app2 (app_environ environ2))
      (at_application (fst (__call__ st app environ sr)) environ2 sr2)
      = (st5, Ok response2) ->
    snd (__call__ (fst (__call__ st app environ sr)) app2 environ2 sr2)
      = Ok (map (fun _ => c) response2).
Proof.
  intros Hns Hraise.
  assert (Hslot : redirect_content (fst (__call__ st app environ sr))
                  = redirect_content st).
  { rewrite call_state.
    pose proof (run_app_redirect W _ (at_application st environ sr) Hns) as Hrun.
    unfold __call__, at_application in *.
    destruct (run_app _ _) as [st3 [response|e0]]; [discriminate|exact Hrun]. }
  split; [assumption|].
  intros c app2 environ2 sr2 st5 response2 Hc Hne Hns2 Hrun2.
  rewrite (call_returns W _ app2 environ2 sr2 st5 response2 Hrun2). simpl.
  pose proof (run_app_redirect W _
                (at_application (fst (__call__ st app environ sr)) environ2 sr2)
                Hns2) as Hkeep.
  rewrite Hrun2 in Hkeep. simpl in Hkeep.
  rewrite Hkeep, Hslot, Hc. now rewrite smash_staged.
Qed.

Lemma failed_request_keeps_override_witness :
  redirect_content
    (fst (__call__ (lib := Ref.lib) Samples.st_staged
            (fun _ => AppRaise (AppError "boom")) [] Ref.recorder))
  = redirect_content Samples.st_staged /\
  snd (__call__ (lib := Ref.lib)
         (fst (__call__ (lib := Ref.lib) Samples.st_staged
                 (fun _ => AppRaise (AppError "boom")) [] Ref.recorder))
         (fun _ => AppReturn ["next"; "page"]) [] Ref.recorder)
  = Ok (map (fun _ => "R") ["next"; "page"]).
Proof.
  destruct (failed_request_keeps_override (lib := Ref.lib) sr_call
              Samples.st_staged (fun _ => AppRaise (AppError "boom")) []
              Ref.recorder (AppError "boom") I eq_refl) as [Hslot Hnext].
  split; [exact Hslot|].
  apply (Hnext "R" (fun _ => AppReturn ["next"; "page"]) [] Ref.recorder
           (mkState None (PDict []) (Some Ref.recorder) (Some "R"))
           ["next"; "page"]).
  - reflexivity.
  - discriminate.
  - exact I.
  - reflexivity.
Defined.

(** X14: the body [__call__] returns has as many chunks as the response of
    the application, whether an override is staged or not. *)
Theorem body_keeps_number_of_chunks {lib : PyLib} (W : Type) (st : state W)
    (app : application W) (environ : dict) (sr : starter W) (body : list string) :
  snd (__call__ st app environ sr) = Ok body ->
  exists st3 response,
    run_app (app (app_environ environ)) (at_application st environ sr)
      = (st3, Ok response) /\
    List.length body = List.length response.
Proof.
  unfold __call__, at_application.
  destruct (run_app _ _) as [st3 [response|e]]; simpl; [|discriminate].
  intros [= <-]. exists st3, response. split; [reflexivity|].
  unfold smash. destruct (redirect_content st3) as [c|]; [|reflexivity].
  destruct (truthy (Some c)); [apply length_map|reflexivity].
Qed.

Lemma body_keeps_number_of_chunks_witness :
  exists st3 response,
    run_app ((fun _ => AppReturn ["a"; "b"; "c"]) (app_environ (lib := Ref.lib) []))
      (at_application (lib := Ref.lib) Samples.st_staged [] Ref.recorder)
      = (st3, Ok response) /\
    List.length ["R"; "R"; "R"] = List.length response.
Proof.
  apply (body_keeps_number_of_chunks (lib := Ref.lib) sr_call Samples.st_staged
           (fun _ => AppReturn ["a"; "b"; "c"]) [] Ref.recorder ["R"; "R"; "R"]).
  reflexivity.
Defined.

(** X15: the environment handed to the application always has the key
    [HTTP_COOKIE], also when the request had no [Cookie] header, and every
    other key of the request's environment reaches the application with the
    value it had. *)
Theorem environ_other_keys_unchanged {lib : PyLib} (environ : dict) :
  Dict.mem (app_environ environ) "HTTP_COOKIE" = true /\
  forall key, key <> "HTTP_COOKIE" ->
              Dict.get (app_environ environ) key = Dict.get environ key.
Proof.
  unfold app_environ, Dict.mem. split.
  - now rewrite DictFacts.get_set_eq.
  - intros key Hne. apply DictFacts.get_set_ne. congruence.
Qed.

(** X16: whatever the application does and whether it returns or raises,
    after [__call__] the instance still holds the response starter of this
    request, and [decoded_zappa] is what it was before. *)
Theorem call_keeps_starter_and_decoded {lib : PyLib} (W : Type) (st : state W)
    (app : application W) (environ : dict) (sr : starter W) :
  start_response (fst (__call__ st app environ sr)) = Some sr /\
  decoded_zappa (fst (__call__ st app environ sr)) = decoded_zappa st.
Proof.
  rewrite call_state.
  destruct (run_app_frame W (app (app_environ environ))
              (at_application st environ sr)) as [Hdz Hsr].
  destruct (snd (run_app _ _)); simpl; rewrite ?Hdz, ?Hsr; split; reflexivity.
Qed.

(** X17: for an application that starts its response once, with
    [Set-Cookie] directives that all have an [=], and then returns, the jar
    after the request is the parsed cookies of the request (without
    [zappa]) updated with the directives in header order, and the body is
    the response with the override applied. *)
Theorem call_merges_into_request_cookies {lib : PyLib} (W : Type) (st : state W)
    (environ : dict) (sr : starter W) (status : string) (headers : list header)
    (exc : exc_info) (response : list string) :
  (forall h, In ("Set-Cookie", h) headers -> 0 < Str.count "=" h) ->
  exists cds,
    cookie_dicts headers = Ok cds /\
    __call__ st
      (fun _ => AppStartResponse status headers exc (fun _ => AppReturn response))
      environ sr
    = (set_redirect_content
         (set_request_cookies (set_start_response st (Some sr))
            (PDict (update_all (parsed_cookies environ) cds)))
         None,
       Ok (smash (redirect_content st) response)).
Proof.
  intros Hwell. destruct (cookie_dicts_all_ok headers Hwell) as (cds & E).
  exists cds. split; [assumption|].
  unfold __call__, run_app, encode_response. rewrite E. reflexivity.
Qed.

Lemma call_merges_into_request_cookies_witness :
  exists cds,
    cookie_dicts [("Content-Type", "text/html"); ("Set-Cookie", "sid=42; Path=/")]
      = Ok cds /\
    __call__ (lib := Ref.lib) Samples.st_ab
      (fun _ => AppStartResponse "200 OK"
                  [("Content-Type", "text/html"); ("Set-Cookie", "sid=42; Path=/")]
                  None (fun _ => AppReturn ["hello"]))
      Samples.mixed_request Ref.recorder
    = (set_redirect_content
         (set_request_cookies (set_start_response Samples.st_ab (Some Ref.recorder))
            (PDict (update_all (parsed_cookies (lib := Ref.lib) Samples.mixed_request)
                      cds)))
         None,
       Ok (smash (redirect_content Samples.st_ab) ["hello"])).
Proof.
  apply (call_merges_into_request_cookies (lib := Ref.lib) sr_call Samples.st_ab
           Samples.mixed_request Ref.recorder "200 OK"
           [("Content-Type", "text/html"); ("Set-Cookie", "sid=42; Path=/")]
           None ["hello"]).
  intros h [[=]|[[= <-]|[]]]. simpl. lia.
Defined.

Example request_then_response :
  request_cookies
    (fst (__call__ (lib := Ref.lib) Samples.st_ab
            (fun _ => AppStartResponse "200 OK"
                        [("Content-Type", "text/html"); ("Set-Cookie", "sid=42; Path=/")]
                        None (fun _ => AppReturn ["hello"]))
            Samples.mixed_request Ref.recorder))
  = PDict [("lang", PStr "en"); ("sid", PStr "42; Path=/")].
Proof. reflexivity. Qed.

(** ** The generator [iter_cookies_expires] *)

Section Generator.

Context {lib : PyLib}.

Lemma yields_sound (items : dict) (name : string) (exp : struct_time) :
  In (name, exp) (yields (iter_items items)) ->
  exists v, In (name, PStr v) items /\ cookie_expires name (PStr v) = Some (Ok exp).
Proof.
  induction items as [|[k v] items IH]; simpl; [tauto|].
  destruct (cookie_expires k v) as [[exp0|e]|] eqn:Ece; simpl.
  - intros [[= -> ->]|Hin].
    + destruct v; try discriminate. eauto.
    + destruct (IH Hin) as (v0 & Hin0 & H0). eauto.
  - tauto.
  - intros Hin. destruct (IH Hin) as (v0 & Hin0 & H0). eauto.
Qed.

Lemma yields_complete (items : dict) (name : string) (v : pyval) (exp : struct_time) :
  throws (iter_items items) = None ->
  In (name, v) items ->
  cookie_expires name v = Some (Ok exp) ->
  In (name, exp) (yields (iter_items items)).
Proof.
  induction items as [|[k v0] items IH]; simpl; [tauto|].
  destruct (cookie_expires k v0) as [[exp0|e]|] eqn:Ece; simpl.
  - intros Hth [[= -> ->]|Hin] Hce.
    + left. congruence.
    + right. auto.
  - discriminate.
  - intros Hth [[= -> ->]|Hin] Hce; [congruence|auto].
Qed.

Lemma yields_length (items : dict) :
  List.length (yields (iter_items items)) <= List.length items.
Proof.
  induction items as [|[k v] items IH]; simpl; [lia|].
  destruct (cookie_expires k v) as [[exp0|e]|]; simpl; lia.
Qed.

End Generator.

(** X18: for a jar, [iter_cookies_expires] yields at most one pair per
    entry, and each pair it yields is the name of a string entry of the jar
    with the expiration read from it; when the generator ends without an
    exception, every entry whose expiration can be read has been yielded. *)
Theorem iter_cookies_expires_yields {lib : PyLib} (W : Type) (st : state W)
    (jar : dict) :
  request_cookies st = PDict jar ->
  List.length (yields (iter_cookies_expires st)) <= List.length jar /\
  (forall name exp,
      In (name, exp) (yields (iter_cookies_expires st)) ->
      exists v, In (name, PStr v) jar /\ cookie_expires name (PStr v) = Some (Ok exp)) /\
  (throws (iter_cookies_expires st) = None ->
   forall name v exp,
     In (name, v) jar -> cookie_expires name v = Some (Ok exp) ->
     In (name, exp) (yields (iter_cookies_expires st))).
Proof.
  intros Hjar. unfold iter_cookies_expires. rewrite Hjar.
  split; [apply yields_length|]. split.
  - intros name exp. apply yields_sound.
  - intros Hth name v exp. now apply yields_complete.
Qed.

Lemma iter_cookies_expires_yields_witness :
  yields (iter_cookies_expires (lib := Ref.lib) (Samples.with_jar Samples.jar_session))
  = [("sid", [2020; 1; 1; 0; 0; 0; 2; 1; -1]%Z)] /\
  exists v, In ("sid", PStr v) Samples.jar_session /\
            cookie_expires (lib := Ref.lib) "sid" (PStr v)
            = Some (Ok [2020; 1; 1; 0; 0; 0; 2; 1; -1]%Z).
Proof.
  split; [reflexivity|].
  destruct (iter_cookies_expires_yields (lib := Ref.lib) sr_call
              (Samples.with_jar Samples.jar_session) Samples.jar_session eq_refl)
    as (_ & Hsound & _).
  apply Hsound. left. reflexivity.
Defined.

(** X19: [encode_response] merges before it calls the response starter and
    does not undo the merge: when every directive has an [=], the jar is
    updated with all of them whether the starter returns, raises, or is not
    set at all (the call then raises [TypeError]). *)
Theorem merge_precedes_start_response (W : Type) (st : state W)
    (status : string) (headers : list header) (exc : exc_info) (jar : dict) :
  request_cookies st = PDict jar ->
  (forall h, In ("Set-Cookie", h) headers -> 0 < Str.count "=" h) ->
  exists cds,
    cookie_dicts headers = Ok cds /\
    encode_response st status headers exc
    = (set_request_cookies st (PDict (update_all jar cds)),
       match start_response st with
       | Some sr => sr status (new_headers headers) exc
       | None => Raise TypeError
       end).
Proof.
  intros Hjar Hwell. destruct (cookie_dicts_all_ok headers Hwell) as (cds & E).
  exists cds. split; [assumption|].
  unfold encode_response. rewrite E, Hjar. simpl.
  destruct (start_response st); reflexivity.
Qed.

Lemma merge_precedes_start_response_witness :
  exists cds,
    cookie_dicts [("Set-Cookie", "a=9")] = Ok cds /\
    encode_response (init_state (W := sr_call)) "200 OK" [("Set-Cookie", "a=9")] None
    = (set_request_cookies init_state (PDict (update_all [] cds)),
       match start_response (init_state (W := sr_call)) with
       | Some sr => sr "200 OK" (new_headers [("Set-Cookie", "a=9")]) None
       | None => Raise TypeError
       end).
Proof.
  apply (merge_precedes_start_response sr_call init_state "200 OK"
           [("Set-Cookie", "a=9")] None []).
  - reflexivity.
  - intros h [[= <-]|[]]. simpl. lia.
Defined.
